(** * semantic-release-kandji: the upload-and-converge workflow

    A shallow embedding of [src/kandji-client.js] (class [KandjiClient]) and of
    the two release-plugin entry points that drive it (the CommonJS plugin with
    [verifyConditions] / [resolveAsset] / [prepare] / [publish], and the ES
    module [semantic-release-kandji.js] with [kandjiSemanticReleasePlugin]).

    Asynchronous code is sequential here: every [await] is a bind of the [IO]
    monad below, whose state is the trace of the observable effects performed
    so far (HTTP requests through axios and [setTimeout] delays).  The outside
    world (what axios answers, what the file system and the process environment
    hold) is a record of oracles, [World]; every theorem quantifies over it.
    Console and logger output is left out: it never changes control flow. *)

From Stdlib Require Import String Ascii List ZArith Bool Arith Lia.
From Equations Require Import Equations.
Import ListNotations.
Local Open Scope string_scope.
Local Open Scope list_scope.
Local Open Scope nat_scope.

(** String concatenation, JavaScript's [+] on strings and template literals. *)
Infix "+++" := String.append (right associativity, at level 60).

(* ===================================================================== *)
(** ** JavaScript strings                                                 *)
(* ===================================================================== *)

Module JsString.

(** [hay.includes(needle)] *)
Fixpoint includes (hay needle : string) : bool :=
  String.prefix needle hay
  || match hay with
     | EmptyString => false
     | String _ rest => includes rest needle
     end.

(** [s.split(sep)] for a one-character separator: never the empty array. *)
Fixpoint split (sep : ascii) (s : string) : list string :=
  match s with
  | EmptyString => [EmptyString]
  | String c rest =>
      if Ascii.eqb c sep then EmptyString :: split sep rest
      else match split sep rest with
           | seg :: segs => String c seg :: segs
           | [] => [String c EmptyString]
           end
  end.

(** [arr.pop()] as an expression: the last element, [undefined] on []. *)
Fixpoint pop (arr : list string) : option string :=
  match arr with
  | [] => None
  | [x] => Some x
  | _ :: rest => pop rest
  end.

(** [`${v}`] of a value that is a string or [undefined]. *)
Definition template (v : option string) : string :=
  match v with
  | Some s => s
  | None => "undefined"
  end.

Definition newline : string := String (ascii_of_nat 10) EmptyString.

(** [lines.join("\n")] *)
Definition join (sep : string) (lines : list string) : string :=
  String.concat sep lines.

Fixpoint drop (n : nat) (s : string) : string :=
  match n, s with
  | 0, _ => s
  | S k, String _ rest => drop k rest
  | S _, EmptyString => EmptyString
  end.

(** The replacement text of [String.prototype.replace] for a pattern with
    no capture group: [$$], [$&], [$`] and [$'] are expanded, every other
    character (also [$1] and [$<], there being no group) stands for itself. *)
Fixpoint getSubstitution (matched before after repl : string) : string :=
  match repl with
  | EmptyString => EmptyString
  | String c rest =>
      if Ascii.eqb c "$" then
        match rest with
        | String d rest' =>
            if Ascii.eqb d "$" then String "$" (getSubstitution matched before after rest')
            else if Ascii.eqb d "&" then matched +++ getSubstitution matched before after rest'
            else if Ascii.eqb d "`" then before +++ getSubstitution matched before after rest'
            else if Ascii.eqb d "'" then after +++ getSubstitution matched before after rest'
            else String c (getSubstitution matched before after rest)
        | EmptyString => String c EmptyString
        end
      else String c (getSubstitution matched before after rest)
  end.

(** [s.replace(/pat/g, repl)] for a pattern [pat] that is a literal,
    non-empty text: matches are found left to right and do not overlap.
    [skip] counts the characters of the current match still to pass over,
    [before] is the part of the subject already passed. *)
Fixpoint replaceAllFrom (pat repl : string) (skip : nat) (before s : string)
  : string :=
  match s with
  | EmptyString => EmptyString
  | String c rest =>
      match skip with
      | S k => replaceAllFrom pat repl k (before +++ String c EmptyString) rest
      | 0 =>
          if String.prefix pat s then
            getSubstitution pat before (drop (String.length pat) s) repl
            +++ replaceAllFrom pat repl (String.length pat - 1)
                 (before +++ String c EmptyString) rest
          else
            String c (replaceAllFrom pat repl 0 (before +++ String c EmptyString) rest)
      end
  end.

Definition replaceAll (pat repl s : string) : string :=
  replaceAllFrom pat repl 0 EmptyString s.

End JsString.

(* ===================================================================== *)
(** ** Requests, responses, errors                                        *)
(* ===================================================================== *)

Inductive Method := GET | POST | PATCH.

(** A value appended to a [FormData]: a text or [fs.createReadStream(path)]. *)
Inductive FormValue :=
| Text (s : string)
| ReadStream (path : string).

(** [FormData]: the fields in the order they were appended. *)
Definition FormData := list (string * FormValue).

Inductive Body :=
| NoData                                     (* data = null *)
| JsonObject (props : list (string * string))  (* an object literal *)
| UrlSearchParams (props : list (string * string))
| MultipartForm (form : FormData).

Record Request := mkRequest {
  method : Method;
  url : string;
  headers : list (string * string);
  data : Body
}.

(** The body of a failed response, as far as the client looks into it:
    [data?.detail] is [undefined] when there is no body or the body is a text,
    and the [detail] property of the body when it is an object; [detail], when
    the API sends it, is a string. *)
Inductive ErrorData :=
| NoBody
| TextBody (s : string)
| ObjectBody (detail : option string).

Record ErrorResponse := mkErrorResponse {
  status : Z;
  errorData : ErrorData
}.

(** The error an axios promise rejects with: [error.response] is undefined
    when no response was received (network failure). *)
Record AxiosError := mkAxiosError {
  message : string;
  response : option ErrorResponse
}.

(** What an axios call settles to.  axios resolves on a 2xx status and rejects
    on every other one (its default [validateStatus]); of a resolved response
    the client only reads [response.data]. *)
Inductive Reply (A : Type) :=
| Resolved (responseData : A)
| Rejected (error : AxiosError).
Arguments Resolved {A} _.
Arguments Rejected {A} _.

(** Thrown values. *)
Inductive Exn :=
| Error (msg : string)            (* new Error(msg) *)
| TypeError (msg : string)
| Axios (error : AxiosError)
| ENOENT (path : string).         (* fs failure on a missing path *)

(** Observable effects. *)
Inductive Event :=
| Http (req : Request)
| SetTimeout (ms : nat).

Definition Trace := list Event.

(** The signed upload target sent back by [POST .../custom-apps/upload];
    [post_data] lists the entries of the object as [Object.entries] does. *)
Record SignedUrl := mkSignedUrl {
  post_url : string;
  file_key : string;
  post_data : list (string * string)
}.

(** Parsed response bodies the client hands through without reading them. *)
Definition ApiData := string.

(** [branch.prerelease] of semantic-release: absent, a boolean, or the name of
    the pre-release channel. *)
Inductive Prerelease :=
| PrereleaseUndefined
| PrereleaseBool (b : bool)
| PrereleaseName (channel : string).

(** The world outside the program.  The axios oracles see the trace so far, so
    an answer may depend on everything that happened before the request. *)
Record World := mkWorld {
  axios_api : Trace -> Request -> Reply ApiData;
  axios_signed : Trace -> Request -> Reply SignedUrl;
  axios_storage : Trace -> Request -> Reply ApiData;
  fs_realpathSync : string -> option string;
  fs_access : string -> bool;
  glob_sync : string -> list string;
  env_KANDJI_BASE_URL : option string;
  env_KANDJI_API_TOKEN : option string
}.

(* ===================================================================== *)
(** ** The IO monad: trace passing with exceptions                        *)
(* ===================================================================== *)

Definition IO (A : Type) : Type := Trace -> Trace * (Exn + A).

Definition ret {A} (a : A) : IO A := fun tr => (tr, inr a).

Definition throw {A} (e : Exn) : IO A := fun tr => (tr, inl e).

Definition bind {A B} (m : IO A) (k : A -> IO B) : IO B :=
  fun tr =>
    match m tr with
    | (tr', inr a) => k a tr'
    | (tr', inl e) => (tr', inl e)
    end.

(** [try { m } catch (error) { handler error }] *)
Definition tryCatch {A} (m : IO A) (handler : Exn -> IO A) : IO A :=
  fun tr =>
    match m tr with
    | (tr', inr a) => (tr', inr a)
    | (tr', inl e) => handler e tr'
    end.

Declare Scope io_scope.
Delimit Scope io_scope with io.
Notation "x <- m ;; k" := (bind m (fun x => k))
  (at level 61, m at next level, right associativity) : io_scope.
Notation "m ;;; k" := (bind m (fun _ => k))
  (at level 61, right associativity) : io_scope.
Local Open Scope io_scope.

(** One call of axios: the request is recorded, the oracle answers. *)
Definition axios {A} (oracle : Trace -> Request -> Reply A) (req : Request)
  : IO A :=
  fun tr =>
    (tr ++ [Http req],
     match oracle tr req with
     | Resolved d => inr d
     | Rejected e => inl (Axios e)
     end).

(** [await new Promise((resolve) => setTimeout(resolve, ms))] *)
Definition sleep (ms : nat) : IO unit :=
  fun tr => (tr ++ [SetTimeout ms], inr tt).

(** JavaScript truthiness of a value that is a string or [undefined]. *)
Definition truthy (v : option string) : bool :=
  match v with
  | Some EmptyString => false
  | Some _ => true
  | None => false
  end.

(* ===================================================================== *)
(** ** [class KandjiClient] (src/kandji-client.js)                        *)
(* ===================================================================== *)

Record KandjiClient := mkKandjiClient {
  baseUrl : string;
  apiToken : string
}.

Module Client.

(** [constructor(baseUrl, apiToken)] *)
Definition constructor (baseUrl apiToken : option string) : IO KandjiClient :=
  if negb (truthy baseUrl) || negb (truthy apiToken) then
    throw (Error "Base URL and API token are required.")
  else
    ret {| baseUrl := JsString.template baseUrl;
           apiToken := JsString.template apiToken |}.

Definition maxAttempts : nat := 10.
Definition timeoutDuration : nat := 5000.

(** [data?.detail] *)
Definition detailOf (d : ErrorData) : option string :=
  match d with
  | NoBody => None
  | TextBody _ => None
  | ObjectBody detail => detail
  end.

(** The condition of the [catch] block of [updateCustomApp]:
    [error.response && error.response.status === 503 &&
     error.response.data?.detail?.includes("still being processed")].
    A thrown value that is not an axios error has no [response]. *)
Definition stillProcessing (error : Exn) : bool :=
  match error with
  | Axios e =>
      match response e with
      | Some r =>
          (status r =? 503)%Z
          && match detailOf (errorData r) with
             | Some detail => JsString.includes detail "still being processed"
             | None => false
             end
      | None => false
      end
  | _ => false
  end.

(** The [FormData] built by [uploadToS3], one [append] after the other. *)
Definition append (form : FormData) (name : string) (value : FormValue)
  : FormData :=
  form ++ [(name, value)].

Definition appendPostData (form : FormData) (entry : string * string)
  : FormData :=
  let (key, value) := entry in
  if negb (String.eqb key "key") then append form key (Text value)
  else form.

Definition buildFormData (filepath : string) (signedUrl : SignedUrl)
  : FormData :=
  let fileFormData := [] in
  let fileFormData := append fileFormData "key" (Text (file_key signedUrl)) in
  let fileFormData :=
    fold_left appendPostData (post_data signedUrl) fileFormData in
  append fileFormData "file" (ReadStream filepath).

(** [fileFormData.getHeaders()]: the multipart content type (the boundary
    parameter, a random text, is left out). *)
Definition getHeaders (form : FormData) : list (string * string) :=
  [("content-type", "multipart/form-data")].

Section Methods.

Variable w : World.
Variable this : KandjiClient.

(** [request(method, endpoint, data = null)] *)
Definition requestOf (method : Method) (endpoint : string) (data : Body)
  : Request :=
  {| method := method;
     url := baseUrl this +++ endpoint;
     headers := [("Authorization", "Bearer " +++ apiToken this);
                 ("Content-Type", "application/json");
                 ("maxBodyLength", "Infinity")];
     data := data |}.

Definition request (method : Method) (endpoint : string) (data : Body)
  : IO ApiData :=
  tryCatch
    (axios (axios_api w) (requestOf method endpoint data))
    (fun error => throw error).

(** [getCustomAppById(id)] *)
Definition getCustomAppById (id : string) : IO ApiData :=
  let endpoint := "/api/v1/library/custom-apps/" +++ id in
  request GET endpoint NoData.

(** [listApps()] *)
Definition listApps : IO ApiData :=
  let endpoint := "/api/v1/library/custom-apps" in
  tryCatch (request GET endpoint NoData) (fun error => throw error).

(** [getSignedUrl(filename)] *)
Definition signedUrlRequest (filename : string) : Request :=
  let endpoint := "/api/v1/library/custom-apps/upload" in
  {| method := POST;
     url := baseUrl this +++ endpoint;
     headers := [("Authorization", "Bearer " +++ apiToken this);
                 ("Content-Type", "application/x-www-form-urlencoded")];
     data := UrlSearchParams [("name", filename)] |}.

Definition getSignedUrl (filename : string) : IO SignedUrl :=
  axios (axios_signed w) (signedUrlRequest filename).

(** [uploadToS3(filepath, signedUrl)] *)
Definition storageRequest (filepath : string) (signedUrl : SignedUrl)
  : Request :=
  let fileFormData := buildFormData filepath signedUrl in
  {| method := POST;
     url := post_url signedUrl;
     headers := getHeaders fileFormData;
     data := MultipartForm fileFormData |}.

Definition uploadToS3 (filepath : string) (signedUrl : SignedUrl)
  : IO ApiData :=
  tryCatch
    (axios (axios_storage w) (storageRequest filepath signedUrl))
    (fun error => throw error).

(** Keeps the equation of a test in scope of its branches. *)
Definition inspect {A} (a : A) : {b : A | a = b} := exist _ a eq_refl.

#[local] Unset Equations With Funext.

(** [updateCustomApp(appId, fileKey, attempt = 0)].  The recursion is the
    source's; it ends because the attempt counter only grows and the
    function throws once it is above [maxAttempts]. *)
Equations? updateCustomApp (appId fileKey : string) (attempt : nat)
  (tr : Trace) : Trace * (Exn + ApiData) by wf (S maxAttempts - attempt) lt :=
updateCustomApp appId fileKey attempt tr
  with inspect (Nat.ltb maxAttempts attempt) := {
  | exist _ true _ =>
      throw (Error "Unable to verify updated app after 10 attempts. Exiting") tr
  | exist _ false notAbove
      with request PATCH ("/api/v1/library/custom-apps/" +++ appId)
             (JsonObject [("file_key", fileKey)]) tr := {
      | (tr1, inr updatedApp) => ret updatedApp tr1
      | (tr1, inl error) with stillProcessing error := {
          | true =>
              updateCustomApp appId fileKey (attempt + 1)
                (fst (sleep timeoutDuration tr1))
          | false => throw error tr1 } } }.
Proof.
  change (11 - (attempt + 1) < 11 - attempt).
  apply Nat.ltb_ge in notAbove. unfold maxAttempts in notAbove. lia.
Qed.

(** [upload(filepath, appId)] *)
Definition realpathSync (filepath : string) : IO string :=
  match fs_realpathSync w filepath with
  | Some resolved => ret resolved
  | None => throw (ENOENT filepath)
  end.

Definition upload (filepath appId : string) : IO unit :=
  _ <- realpathSync filepath ;;
  let filename := JsString.pop (JsString.split "/" filepath) in
  signedUrl <- getSignedUrl (JsString.template filename) ;;
  _ <- uploadToS3 filepath signedUrl ;;
  _ <- updateCustomApp appId (file_key signedUrl) 0 ;;
  ret tt.

End Methods.

End Client.

(* ===================================================================== *)
(** ** The release plugins                                                *)
(* ===================================================================== *)

(** The double quote, for the messages that hold one. *)
Definition dquote : string := String (ascii_of_nat 34) EmptyString.

(** [branch.prerelease || false], then read as a condition. *)
Definition isPrereleaseOf (prerelease : Prerelease) : bool :=
  match prerelease with
  | PrereleaseUndefined => false
  | PrereleaseBool b => b
  | PrereleaseName channel => truthy (Some channel)
  end.

(** A destructuring default: [{ x = dflt } = obj]. *)
Definition orDefault {A} (v : option A) (dflt : A) : A :=
  match v with
  | Some a => a
  | None => dflt
  end.

(** The CommonJS plugin: [verifyConditions], [prepare], [publish]. *)
Module Plugin.

Record PluginConfig := mkPluginConfig {
  appID : option string;
  asset : option string;
  release : option bool;
  preRelease : option bool;
  postinstallScript : option (list string)
}.

Record Context := mkContext {
  branch_prerelease : Prerelease;
  nextRelease_version : option string
}.

Section Hooks.

Variable w : World.

Definition verifyConditions (pluginConfig : PluginConfig) : IO unit :=
  if negb (truthy (env_KANDJI_BASE_URL w))
     || negb (truthy (env_KANDJI_API_TOKEN w)) then
    throw (Error
      "Environment variables KANDJI_BASE_URL and KANDJI_API_TOKEN are required.")
  else if negb (truthy (appID pluginConfig))
          || negb (truthy (asset pluginConfig)) then
    throw (Error
      ("The Kandji plugin requires " +++ dquote +++ "appID" +++ dquote
       +++ " and a valid " +++ dquote +++ "asset" +++ dquote
       +++ " configuration."))
  else ret tt.

(** [assetPattern.replace(/\$\{nextRelease\.version\}/g, nextReleaseVersion)] *)
Definition processPattern (assetPattern nextReleaseVersion : string)
  : string :=
  JsString.replaceAll "${nextRelease.version}" nextReleaseVersion
    assetPattern.

Definition noFilesFound (processedPattern : string) : Exn :=
  Error ("No files found for pattern: " +++ processedPattern).

Definition multipleFilesMatched (processedPattern : string) : Exn :=
  Error ("Multiple files matched for pattern " +++ dquote
         +++ processedPattern +++ dquote
         +++ ", but only one asset is allowed.").

Definition resolveAsset (assetPattern nextReleaseVersion : option string)
  : IO string :=
  if negb (truthy nextReleaseVersion) then
    throw (Error
      "nextRelease.version is undefined. Cannot resolve asset path.")
  else
    match assetPattern with
    | None =>
        throw (TypeError
          "Cannot read properties of undefined (reading 'replace')")
    | Some pattern =>
        let processedPattern :=
          processPattern pattern (JsString.template nextReleaseVersion) in
        let matchedFiles := glob_sync w processedPattern in
        if length matchedFiles =? 0 then
          throw (noFilesFound processedPattern)
        else if 1 <? length matchedFiles then
          throw (multipleFilesMatched processedPattern)
        else
          match nth_error matchedFiles 0 with
          | Some file => ret file
          | None => ret "undefined"
          end
    end.

Definition access (path : string) : IO unit :=
  if fs_access w path then ret tt else throw (ENOENT path).

Definition prepare (pluginConfig : PluginConfig) (context : Context)
  : IO unit :=
  resolvedAsset <-
    resolveAsset (asset pluginConfig) (nextRelease_version context) ;;
  tryCatch (access resolvedAsset)
    (fun err =>
       throw (Error ("The asset file does not exist: " +++ resolvedAsset))).

(** The statements of [publish] below its release gate. *)
Definition publishRelease (pluginConfig : PluginConfig) (context : Context)
  : IO unit :=
  let appID := appID pluginConfig in
  let postinstallScript := orDefault (postinstallScript pluginConfig) [] in
  let baseUrl := env_KANDJI_BASE_URL w in
  let apiToken := env_KANDJI_API_TOKEN w in
  kandjiClient <- Client.constructor baseUrl apiToken ;;
  tryCatch
    (resolvedAsset <-
       resolveAsset (asset pluginConfig) (nextRelease_version context) ;;
     _ <- Client.upload w kandjiClient resolvedAsset
            (JsString.template appID) ;;
     if 0 <? length postinstallScript then
       let endpoint :=
         "/api/v1/library/custom-apps/" +++ JsString.template appID in
       let data :=
         JsonObject [("postinstall_script",
                      JsString.join JsString.newline postinstallScript)] in
       _ <- Client.request w kandjiClient PATCH endpoint data ;;
       ret tt
     else ret tt)
    (fun error => throw error).

Definition publish (pluginConfig : PluginConfig) (context : Context)
  : IO unit :=
  let release := orDefault (release pluginConfig) true in
  let preRelease := orDefault (preRelease pluginConfig) false in
  let isPrerelease := isPrereleaseOf (branch_prerelease context) in
  if (negb release && negb preRelease)
     || (isPrerelease && negb preRelease)
     || (negb isPrerelease && negb release)
  then ret tt
  else publishRelease pluginConfig context.

End Hooks.

End Plugin.

(** The ES module [semantic-release-kandji.js]. *)
Module ReleasePlugin.

Record Config := mkConfig {
  appID : option string;
  asset : option string;
  preRelease : option bool;
  release : option bool;
  postinstall_script : option (list string)
}.

Record Context := mkContext {
  branch_prerelease : Prerelease
}.

Section Plugin.

Variable w : World.

Definition access (path : string) : IO unit :=
  if fs_access w path then ret tt else throw (ENOENT path).

(** The statements of [kandjiSemanticReleasePlugin] below its gate. *)
Definition runRelease (config : Config) : IO unit :=
  let appID := appID config in
  let asset := asset config in
  let postinstall_script := orDefault (postinstall_script config) [] in
  if negb (truthy appID) || negb (truthy asset) then
    throw (Error "Invalid configuration: appID and asset are required.")
  else
    let baseUrl := env_KANDJI_BASE_URL w in
    let apiToken := env_KANDJI_API_TOKEN w in
    if negb (truthy baseUrl) || negb (truthy apiToken) then
      throw (Error
        "Environment variables KANDJI_BASE_URL and KANDJI_API_TOKEN must be set.")
    else
      kandjiClient <- Client.constructor baseUrl apiToken ;;
      tryCatch
        (_ <- access (JsString.template asset) ;;
         _ <- Client.upload w kandjiClient (JsString.template asset)
                (JsString.template appID) ;;
         if 0 <? length postinstall_script then
           let endpoint :=
             "/api/v1/library/custom-apps/" +++ JsString.template appID in
           let data :=
             JsonObject [("postinstall_script",
                          JsString.join JsString.newline postinstall_script)] in
           _ <- Client.request w kandjiClient PATCH endpoint data ;;
           ret tt
         else ret tt)
        (fun error => throw error).

Definition kandjiSemanticReleasePlugin (config : Config) (context : Context)
  : IO unit :=
  let preRelease := orDefault (preRelease config) false in
  let release := orDefault (release config) true in
  let isPrerelease := isPrereleaseOf (branch_prerelease context) in
  if (negb release && negb preRelease)
     || (isPrerelease && negb preRelease)
     || (negb isPrerelease && negb release)
  then ret tt
  else runRelease config.

End Plugin.

End ReleasePlugin.

(* ===================================================================== *)
(** ** Vocabulary of the statements                                       *)
(* ===================================================================== *)

(** The request of one attach attempt: the [PATCH] that [updateCustomApp]
    hands to [request]. *)
Definition attachRequest (c : KandjiClient) (appId fileKey : string) : Request :=
  Client.requestOf c PATCH ("/api/v1/library/custom-apps/" +++ appId)
    (JsonObject [("file_key", fileKey)]).

(** The signed-target request of [upload(filepath, appId)]: for the name
    [filepath.split("/").pop()]. *)
Definition uploadSignedUrlRequest (c : KandjiClient) (filepath : string)
  : Request :=
  Client.signedUrlRequest c
    (JsString.template (JsString.pop (JsString.split "/" filepath))).

(** The error thrown when the attempt counter is above [maxAttempts]. *)
Definition timeoutError : Exn :=
  Error "Unable to verify updated app after 10 attempts. Exiting".

(** The events of [n] attach attempts that were each answered by a wait. *)
Fixpoint failedAttempts (req : Request) (n : nat) : Trace :=
  match n with
  | 0 => []
  | S k => Http req :: SetTimeout Client.timeoutDuration :: failedAttempts req k
  end.

(** The next [n] attach attempts, the first one sent after [tr], are all
    rejected with the "still being processed" answer. *)
Fixpoint allTransient (w : World) (req : Request) (tr : Trace) (n : nat)
  : bool :=
  match n with
  | 0 => true
  | S k =>
      match axios_api w tr req with
      | Rejected e =>
          Client.stillProcessing (Axios e)
          && allTransient w req
               (tr ++ [Http req; SetTimeout Client.timeoutDuration]) k
      | Resolved _ => false
      end
  end.

(** The retry condition in the words of the specification: the failed
    response has status 503 and the [detail] text of its body holds
    "still being processed". *)
Definition transientFailure (e : AxiosError) : Prop :=
  exists r detail pre post,
    response e = Some r
    /\ status r = 503%Z
    /\ Client.detailOf (errorData r) = Some detail
    /\ detail = pre +++ "still being processed" +++ post.

(** How a call of [updateCustomApp] ends: after [n] transient failures, by
    a resolved attempt, by an attempt rejected for another reason, or by the
    counter passing [maxAttempts]. *)
Definition AttachShape (w : World) (c : KandjiClient) (appId fileKey : string)
  (attempt : nat) (tr : Trace) (result : Trace * (Exn + ApiData)) : Prop :=
  let req := attachRequest c appId fileKey in
  exists n,
    allTransient w req tr n = true
    /\ n <= S Client.maxAttempts - attempt
    /\ ((attempt + n <= Client.maxAttempts
         /\ exists d,
             axios_api w (tr ++ failedAttempts req n) req = Resolved d
             /\ result = (tr ++ failedAttempts req n ++ [Http req], inr d))
        \/ (attempt + n <= Client.maxAttempts
            /\ exists e,
                axios_api w (tr ++ failedAttempts req n) req = Rejected e
                /\ Client.stillProcessing (Axios e) = false
                /\ result
                   = (tr ++ failedAttempts req n ++ [Http req], inl (Axios e)))
        \/ (Client.maxAttempts < attempt + n
            /\ result = (tr ++ failedAttempts req n, inl timeoutError))).

(** The events an attach loop adds to the trace. *)
Definition attachEvent (req : Request) (ev : Event) : Prop :=
  ev = Http req \/ ev = SetTimeout Client.timeoutDuration.

Definition isPatch (ev : Event) : bool :=
  match ev with
  | Http req => match method req with PATCH => true | _ => false end
  | SetTimeout _ => false
  end.

Definition patchesIn (tr : Trace) : nat := length (filter isPatch tr).

Definition fieldNamed (name : string) (field : string * FormValue) : bool :=
  String.eqb (fst field) name.

(** An entry of [post_data] that is not named [key], and the form field made
    of an entry. *)
Definition notNamedKey (entry : string * string) : bool :=
  negb (String.eqb (fst entry) "key").

Definition postDataField (entry : string * string) : string * FormValue :=
  (fst entry, Text (snd entry)).

(** The request that patches the post-install script of an app. *)
Definition postinstallRequest (c : KandjiClient) (appID : option string)
  (lines : list string) : Request :=
  Client.requestOf c PATCH
    ("/api/v1/library/custom-apps/" +++ JsString.template appID)
    (JsonObject [("postinstall_script", JsString.join JsString.newline lines)]).

(** What one more call of [request] leaves: the request on the trace, and
    the error of axios when it is rejected. *)
Definition afterRequest (w : World) (tr : Trace) (req : Request)
  : Trace * (Exn + unit) :=
  (tr ++ [Http req],
   match axios_api w tr req with
   | Resolved _ => inr tt
   | Rejected e => inl (Axios e)
   end).

(** The release gate in the words of the specification. *)
Definition releaseGate (release preRelease branchIsPrerelease : bool) : bool :=
  (branchIsPrerelease && preRelease) || (negb branchIsPrerelease && release).

(* ===================================================================== *)
(** ** Concrete worlds                                                    *)
(* ===================================================================== *)

Module Scenario.

Definition stillProcessing503 : AxiosError :=
  {| message := "Request failed with status code 503";
     response :=
       Some {| status := 503;
               errorData := ObjectBody (Some "object is still being processed") |} |}.

Definition notFound404 : AxiosError :=
  {| message := "Request failed with status code 404";
     response :=
       Some {| status := 404;
               errorData := ObjectBody (Some "resource not found") |} |}.

Definition accessDenied403 : AxiosError :=
  {| message := "Request failed with status code 403";
     response := Some {| status := 403; errorData := TextBody "AccessDenied" |} |}.

Definition target : SignedUrl :=
  {| post_url := "https://s3/x";
     file_key := "k1";
     post_data := [("policy", "p")] |}.

Definition targetWithKey : SignedUrl :=
  {| post_url := "https://s3/x";
     file_key := "k1";
     post_data := [("policy", "p"); ("key", "k0"); ("signature", "s")] |}.

(** A backend whose answer to a [PATCH] depends on how many were sent
    before; the signed target is [target]; [matched] is what every glob
    pattern matches. *)
Definition backend (api : nat -> Reply ApiData) (storage : Reply ApiData)
  (matched : list string) : World :=
  {| axios_api := fun tr _ => api (patchesIn tr);
     axios_signed := fun _ _ => Resolved target;
     axios_storage := fun _ _ => storage;
     fs_realpathSync := fun path => Some path;
     fs_access := fun _ => true;
     glob_sync := fun _ => matched;
     env_KANDJI_BASE_URL := Some "https://tenant.api.kandji.io";
     env_KANDJI_API_TOKEN := Some "secret" |}.

Definition client : KandjiClient :=
  {| baseUrl := "https://tenant.api.kandji.io"; apiToken := "secret" |}.

(** [busy] rejections with 503 "still being processed", then [last]. *)
Definition busyThen (busy : nat) (last : Reply ApiData) (n : nat)
  : Reply ApiData :=
  if n <? busy then Rejected stillProcessing503 else last.

Definition settlesAfter (busy : nat) : World :=
  backend (busyThen busy (Resolved "updated app")) (Resolved "") ["dist/app.pkg"].

Definition notFoundAfter (busy : nat) : World :=
  backend (busyThen busy (Rejected notFound404)) (Resolved "") ["dist/app.pkg"].

Definition neverSettles : World :=
  backend (fun _ => Rejected stillProcessing503) (Resolved "") ["dist/app.pkg"].

Definition storageDown : World :=
  backend (fun _ => Resolved "updated app") (Rejected accessDenied403)
    ["dist/app.pkg"].

(** The attach is accepted at once, every later [PATCH] is answered 404. *)
Definition scriptRejected : World :=
  backend
    (fun n => if n <? 1 then Resolved "updated app" else Rejected notFound404)
    (Resolved "") ["dist/app.pkg"].

Definition pluginConfig (script : list string) : Plugin.PluginConfig :=
  {| Plugin.appID := Some "app-123";
     Plugin.asset := Some "dist/*-${nextRelease.version}.pkg";
     Plugin.release := None;
     Plugin.preRelease := None;
     Plugin.postinstallScript := Some script |}.

Definition context : Plugin.Context :=
  {| Plugin.branch_prerelease := PrereleaseBool false;
     Plugin.nextRelease_version := Some "1.2.3" |}.

Definition config (script : list string) : ReleasePlugin.Config :=
  {| ReleasePlugin.appID := Some "app-123";
     ReleasePlugin.asset := Some "dist/app.pkg";
     ReleasePlugin.preRelease := None;
     ReleasePlugin.release := None;
     ReleasePlugin.postinstall_script := Some script |}.

End Scenario.

(* ===================================================================== *)
(** ** Counting what a run leaves on the trace                            *)
(* ===================================================================== *)

Definition isWait (ev : Event) : bool :=
  match ev with
  | SetTimeout _ => true
  | Http _ => false
  end.

Definition waitsIn (tr : Trace) : nat := length (filter isWait tr).

(** The milliseconds of all the waits of a trace. *)
Fixpoint totalWait (tr : Trace) : nat :=
  match tr with
  | [] => 0
  | SetTimeout ms :: rest => ms + totalWait rest
  | Http _ :: rest => totalWait rest
  end.

Definition isHttp (ev : Event) : bool :=
  match ev with
  | Http _ => true
  | SetTimeout _ => false
  end.

Definition httpIn (tr : Trace) : nat := length (filter isHttp tr).

(** The character [c] occurs in [s]. *)
Fixpoint hasChar (c : ascii) (s : string) : bool :=
  match s with
  | EmptyString => false
  | String d rest => Ascii.eqb d c || hasChar c rest
  end.

(** The path made of the segments [segs], each followed by a slash. *)
Fixpoint dirOf (segs : list string) : string :=
  match segs with
  | [] => EmptyString
  | seg :: rest => seg +++ "/" +++ dirOf rest
  end.

(** What an axios promise hands to the code awaiting it. *)
Definition settled {A : Type} (reply : Reply A) : Exn + A :=
  match reply with
  | Resolved d => inr d
  | Rejected e => inl (Axios e)
  end.

(** The form field is a file stream. *)
Definition isReadStream (field : string * FormValue) : bool :=
  match snd field with
  | ReadStream _ => true
  | Text _ => false
  end.

(** The request has an [Authorization] header. *)
Definition carriesAuthorization (req : Request) : bool :=
  existsb (fun header => String.eqb (fst header) "Authorization") (headers req).

(** More concrete worlds. *)
Module Cases.

Definition connectionRefused : AxiosError :=
  {| message := "connect ECONNREFUSED"; response := None |}.

Definition gatewayBusy503 : AxiosError :=
  {| message := "Request failed with status code 503";
     response := Some {| status := 503; errorData := TextBody "Service Unavailable" |} |}.

(** The API cannot be reached. *)
Definition apiUnreachable : World :=
  Scenario.backend (fun _ => Rejected connectionRefused) (Resolved "")
    ["dist/app.pkg"].

(** Like [Scenario.backend], with the file system and the environment to
    choose. *)
Definition host (signed : Reply SignedUrl) (present : string -> bool)
  (matched : list string) (url token : option string) : World :=
  {| axios_api := fun _ _ => Resolved "updated app";
     axios_signed := fun _ _ => signed;
     axios_storage := fun _ _ => Resolved "";
     fs_realpathSync := fun path => if present path then Some path else None;
     fs_access := present;
     glob_sync := fun _ => matched;
     env_KANDJI_BASE_URL := url;
     env_KANDJI_API_TOKEN := token |}.

Definition noSuchFile : World :=
  host (Resolved Scenario.target) (fun _ => false) ["dist/app.pkg"]
    (Some "https://tenant.api.kandji.io") (Some "secret").

Definition signingDenied : World :=
  host (Rejected Scenario.accessDenied403) (fun _ => true) ["dist/app.pkg"]
    (Some "https://tenant.api.kandji.io") (Some "secret").

Definition noToken : World :=
  host (Resolved Scenario.target) (fun _ => true) ["dist/app.pkg"]
    (Some "https://tenant.api.kandji.io") None.

Definition allWell : World :=
  host (Resolved Scenario.target) (fun _ => true) ["dist/app.pkg"]
    (Some "https://tenant.api.kandji.io") (Some "secret").

End Cases.

(* ===================================================================== *)
(** ** Strings                                                            *)
(* ===================================================================== *)

Lemma prefix_spec (p s : string) :
  String.prefix p s = true <-> exists post, s = p +++ post.
Proof.
  revert s. induction p as [|c p IH]; intros s.
  - split; [intros _; now exists s | now destruct s].
  - destruct s as [|d s]; cbn [String.prefix String.append].
    + split; [discriminate | intros [post H]; discriminate].
    + destruct (Ascii.ascii_dec c d) as [->|ne].
      * rewrite IH. split; intros [post H]; exists post.
        -- now rewrite H.
        -- now inversion H.
      * split; [discriminate | intros [post H]; inversion H; congruence].
Qed.

Lemma includes_spec (hay needle : string) :
  JsString.includes hay needle = true
  <-> exists pre post, hay = pre +++ needle +++ post.
Proof.
  induction hay as [|c hay IH]; cbn [JsString.includes].
  - rewrite orb_false_r, prefix_spec. split.
    + intros [post H]. now exists EmptyString, post.
    + intros [pre [post H]]. destruct pre; simpl in H; [now exists post|discriminate].
  - rewrite orb_true_iff, prefix_spec, IH. split.
    + intros [[post H] | [pre [post H]]].
      * now exists EmptyString, post.
      * exists (String c pre), post. simpl. now rewrite H.
    + intros [pre [post H]]. destruct pre as [|d pre]; simpl in H.
      * left. now exists post.
      * right. exists pre, post. now inversion H.
Qed.

(* ===================================================================== *)
(** ** One call of each client method                                     *)
(* ===================================================================== *)

Section Runs.

Variable w : World.
Variable c : KandjiClient.

Lemma request_run method endpoint data tr :
  Client.request w c method endpoint data tr =
  (tr ++ [Http (Client.requestOf c method endpoint data)],
   match axios_api w tr (Client.requestOf c method endpoint data) with
   | Resolved d => inr d
   | Rejected e => inl (Axios e)
   end).
Proof.
  unfold Client.request, tryCatch, axios, throw.
  destruct (axios_api w tr _); reflexivity.
Qed.

Lemma uploadToS3_run filepath signedUrl tr :
  Client.uploadToS3 w filepath signedUrl tr =
  (tr ++ [Http (Client.storageRequest filepath signedUrl)],
   match axios_storage w tr (Client.storageRequest filepath signedUrl) with
   | Resolved d => inr d
   | Rejected e => inl (Axios e)
   end).
Proof.
  unfold Client.uploadToS3, tryCatch, axios, throw.
  destruct (axios_storage w tr _); reflexivity.
Qed.

Lemma updateCustomApp_clause appId fileKey attempt refine tr :
  Client.updateCustomApp_unfold_clause_1 w c appId fileKey attempt refine tr =
  if proj1_sig refine then (tr, inl timeoutError)
  else
    match Client.request w c PATCH ("/api/v1/library/custom-apps/" +++ appId)
            (JsonObject [("file_key", fileKey)]) tr with
    | (tr1, inr updatedApp) => (tr1, inr updatedApp)
    | (tr1, inl error) =>
        if Client.stillProcessing error then
          Client.updateCustomApp w c appId fileKey (attempt + 1)
            (tr1 ++ [SetTimeout Client.timeoutDuration])
        else (tr1, inl error)
    end.
Proof.
  destruct refine as [[|] e];
    cbn [proj1_sig Client.updateCustomApp_unfold_clause_1].
  - reflexivity.
  - unfold Client.updateCustomApp_unfold_clause_1_clause_2.
    destruct (Client.request _ _ _ _ _ _) as [tr1 [error|app]].
    + unfold Client.updateCustomApp_unfold_clause_1_clause_2_clause_2.
      destruct (Client.stillProcessing error); reflexivity.
    + reflexivity.
Qed.

(** The body of [updateCustomApp], one level deep. *)
Lemma updateCustomApp_step appId fileKey attempt tr :
  Client.updateCustomApp w c appId fileKey attempt tr =
  if Client.maxAttempts <? attempt then (tr, inl timeoutError)
  else
    let req := attachRequest c appId fileKey in
    match axios_api w tr req with
    | Resolved updatedApp => (tr ++ [Http req], inr updatedApp)
    | Rejected e =>
        if Client.stillProcessing (Axios e) then
          Client.updateCustomApp w c appId fileKey (attempt + 1)
            (tr ++ [Http req; SetTimeout Client.timeoutDuration])
        else (tr ++ [Http req], inl (Axios e))
    end.
Proof.
  rewrite Client.updateCustomApp_unfold_eq.
  unfold Client.updateCustomApp_unfold.
  rewrite updateCustomApp_clause. cbn [proj1_sig Client.inspect].
  destruct (Client.maxAttempts <? attempt); [reflexivity|].
  rewrite request_run. fold (attachRequest c appId fileKey). cbv zeta.
  destruct (axios_api w tr _) as [d|e]; [reflexivity|].
  destruct (Client.stillProcessing (Axios e)); [|reflexivity].
  now rewrite <- app_assoc.
Qed.

Lemma updateCustomApp_above appId fileKey attempt tr :
  Client.maxAttempts < attempt ->
  Client.updateCustomApp w c appId fileKey attempt tr = (tr, inl timeoutError).
Proof.
  intros H. rewrite updateCustomApp_step.
  apply Nat.ltb_lt in H. now rewrite H.
Qed.

(** A run of [n] "still being processed" answers is [n] recursive calls. *)
Lemma updateCustomApp_transient_run appId fileKey n :
  forall attempt tr,
    attempt + n <= S Client.maxAttempts ->
    allTransient w (attachRequest c appId fileKey) tr n = true ->
    Client.updateCustomApp w c appId fileKey attempt tr =
    Client.updateCustomApp w c appId fileKey (attempt + n)
      (tr ++ failedAttempts (attachRequest c appId fileKey) n).
Proof.
  induction n as [|n IH]; intros attempt tr Hle Hall.
  - now rewrite Nat.add_0_r, app_nil_r.
  - cbn [allTransient] in Hall.
    destruct (axios_api w tr _) as [d|e] eqn:Hreply; [discriminate|].
    apply andb_true_iff in Hall as [He Hall].
    rewrite updateCustomApp_step.
    assert (Hlt : (Client.maxAttempts <? attempt) = false)
      by (apply Nat.ltb_ge; lia).
    rewrite Hlt. cbv zeta. rewrite Hreply, He.
    rewrite (IH (attempt + 1)); [|lia|assumption].
    cbn [failedAttempts]. rewrite <- app_assoc.
    replace (attempt + 1 + n) with (attempt + S n) by lia.
    reflexivity.
Qed.

End Runs.

(* ===================================================================== *)
(** ** The attach loop                                                    *)
(* ===================================================================== *)

Lemma stillProcessing_spec (e : AxiosError) :
  Client.stillProcessing (Axios e) = true <-> transientFailure e.
Proof.
  unfold transientFailure, Client.stillProcessing. split.
  - destruct (response e) as [r|]; [|discriminate].
    intros H. apply andb_true_iff in H as [Hst Hd].
    destruct (Client.detailOf (errorData r)) as [detail|] eqn:Hdet; [|discriminate].
    apply includes_spec in Hd as [pre [post Hd]].
    exists r, detail, pre, post.
    split; [reflexivity|]. split; [now apply Z.eqb_eq|].
    split; [exact Hdet|exact Hd].
  - intros [r [detail [pre [post [-> [Hst [-> Hd]]]]]]].
    apply andb_true_iff. split; [now apply Z.eqb_eq|].
    apply includes_spec. now exists pre, post.
Qed.

Lemma stillProcessing_false (e : AxiosError) :
  Client.stillProcessing (Axios e) = false <-> ~ transientFailure e.
Proof.
  rewrite <- stillProcessing_spec.
  destruct (Client.stillProcessing (Axios e)); split; congruence.
Qed.

Lemma patchesIn_app (tr1 tr2 : Trace) :
  patchesIn (tr1 ++ tr2) = patchesIn tr1 + patchesIn tr2.
Proof. unfold patchesIn. now rewrite filter_app, length_app. Qed.

Lemma patchesIn_failedAttempts c appId fileKey n :
  patchesIn (failedAttempts (attachRequest c appId fileKey) n) = n.
Proof.
  induction n as [|n IH]; [reflexivity|].
  cbn [failedAttempts]. unfold patchesIn in *. simpl. now rewrite IH.
Qed.

Section AttachLoop.

Variable w : World.
Variable c : KandjiClient.
Variables appId fileKey : string.

Local Notation "'req'" := (attachRequest c appId fileKey).

Lemma updateCustomApp_shape_fuel (m : nat) :
  forall attempt tr,
    S Client.maxAttempts - attempt <= m ->
    AttachShape w c appId fileKey attempt tr
      (Client.updateCustomApp w c appId fileKey attempt tr).
Proof.
  induction m as [|m IH]; intros attempt tr Hm.
  - exists 0. cbn [allTransient failedAttempts]. rewrite app_nil_r.
    repeat split; [lia|]. right; right. split; [lia|].
    apply updateCustomApp_above. lia.
  - destruct (Nat.ltb_spec Client.maxAttempts attempt) as [Habove|Hle].
    { exists 0. cbn [allTransient failedAttempts]. rewrite app_nil_r.
      repeat split; [lia|]. right; right. split; [lia|].
      now apply updateCustomApp_above. }
    rewrite updateCustomApp_step.
    assert (Hlt : (Client.maxAttempts <? attempt) = false)
      by (apply Nat.ltb_ge; lia).
    rewrite Hlt. cbv zeta.
    destruct (axios_api w tr req) as [d|e] eqn:Hreply.
    + exists 0. cbn [allTransient failedAttempts]. rewrite app_nil_r.
      repeat split; [lia|]. left. split; [lia|]. now exists d.
    + destruct (Client.stillProcessing (Axios e)) eqn:He.
      * destruct (IH (attempt + 1)
                    (tr ++ [Http req; SetTimeout Client.timeoutDuration]))
          as [n [Hall [Hn Hend]]]; [lia|].
        exists (S n). cbn [allTransient failedAttempts].
        rewrite Hreply, He, Hall. rewrite <- !app_assoc in Hend.
        cbn [app] in Hend.
        replace (attempt + S n) with (attempt + 1 + n) by lia.
        repeat split; [lia|exact Hend].
      * exists 0. cbn [allTransient failedAttempts]. rewrite app_nil_r.
        repeat split; [lia|]. right; left. split; [lia|]. now exists e.
Qed.

Lemma updateCustomApp_shape attempt tr :
  AttachShape w c appId fileKey attempt tr (Client.updateCustomApp w c appId fileKey attempt tr).
Proof. now apply (updateCustomApp_shape_fuel (S Client.maxAttempts - attempt)). Qed.

Lemma failedAttempts_attachEvent n : Forall (attachEvent req) (failedAttempts req n).
Proof.
  induction n as [|n IH]; cbn [failedAttempts]; [constructor|].
  constructor; [now left|]. constructor; [now right|exact IH].
Qed.

Lemma failedAttempts_then_request n :
  exists rest, failedAttempts req n ++ [Http req] = Http req :: rest.
Proof.
  destruct n as [|n]; cbn [failedAttempts app]; eauto.
Qed.

(** The trace only grows, by attach requests and the waits between them;
    the requests are at most as many as the counter leaves room for, and
    there is at least one unless the counter is already above the bound. *)
Lemma updateCustomApp_trace attempt tr :
  exists evs,
    fst (Client.updateCustomApp w c appId fileKey attempt tr) = tr ++ evs
    /\ Forall (attachEvent req) evs
    /\ patchesIn evs <= S Client.maxAttempts - attempt
    /\ (attempt <= Client.maxAttempts -> exists rest, evs = Http req :: rest).
Proof.
  destruct (updateCustomApp_shape attempt tr)
    as [n [_ [Hn [[Hle [d [_ ->]]] | [[Hle [e [_ [_ ->]]]] | [Hgt ->]]]]]];
    cbn [fst].
  1, 2: exists (failedAttempts req n ++ [Http req]).
  1, 2: split; [reflexivity|].
  1, 2: split.
  1, 3: apply Forall_app; split; [apply failedAttempts_attachEvent|].
  1, 2: constructor; [now left | constructor].
  1, 2: split.
  1, 3: rewrite patchesIn_app, patchesIn_failedAttempts;
    change (patchesIn [Http req]) with 1; lia.
  1, 2: intros _; apply failedAttempts_then_request.
  exists (failedAttempts req n).
  split; [reflexivity|]. split; [apply failedAttempts_attachEvent|].
  split; [rewrite patchesIn_failedAttempts; lia|].
  intros Hle. destruct n as [|n]; [lia|]. cbn [failedAttempts]. eauto.
Qed.

End AttachLoop.

(** C1.  When an attach attempt of [updateCustomApp] is rejected (the counter
    being within the bound, as it is whenever a request is sent), the loop goes
    on to a retry exactly when the failure is the transient one: a response
    with status 503 whose [detail] text contains "still being processed".
    The retry is the 5000 ms wait followed by [updateCustomApp] called again
    with the counter plus one, and it sends the [PATCH] again as long as the
    new counter is within the bound.  Any other failure ends the call at once
    with the error axios rejected with: no wait, no further request. *)
Theorem attach_retries_iff_transient :
  forall (w : World) (c : KandjiClient) (appId fileKey : string)
         (attempt : nat) (tr : Trace) (e : AxiosError),
    attempt <= Client.maxAttempts ->
    axios_api w tr (attachRequest c appId fileKey) = Rejected e ->
    let req := attachRequest c appId fileKey in
    let result := Client.updateCustomApp w c appId fileKey attempt tr in
    ((exists rest, fst result = tr ++ [Http req; SetTimeout 5000] ++ rest)
     <-> transientFailure e)
    /\ (transientFailure e ->
        result = Client.updateCustomApp w c appId fileKey (attempt + 1)
                   (tr ++ [Http req; SetTimeout 5000]))
    /\ (transientFailure e -> attempt < Client.maxAttempts ->
        exists rest,
          fst result = tr ++ [Http req; SetTimeout 5000; Http req] ++ rest)
    /\ (~ transientFailure e -> result = (tr ++ [Http req], inl (Axios e))).
Proof.
  intros w c appId fileKey attempt tr e Hle Hreply req result.
  assert (Hstep : result =
                  if Client.stillProcessing (Axios e) then
                    Client.updateCustomApp w c appId fileKey (attempt + 1)
                      (tr ++ [Http req; SetTimeout 5000])
                  else (tr ++ [Http req], inl (Axios e))).
  { unfold result, req. rewrite updateCustomApp_step.
    assert (Hlt : (Client.maxAttempts <? attempt) = false)
      by (apply Nat.ltb_ge; lia).
    rewrite Hlt. cbv zeta. rewrite Hreply. reflexivity. }
  destruct (updateCustomApp_trace w c appId fileKey (attempt + 1)
              (tr ++ [Http req; SetTimeout 5000]))
    as [evs [Hevs [_ [_ Hhead]]]].
  destruct (Client.stillProcessing (Axios e)) eqn:He.
  - apply stillProcessing_spec in He.
    split; [|split; [|split]].
    + split; [intros _; exact He|]. intros _. exists evs.
      rewrite Hstep, Hevs. now rewrite <- app_assoc.
    + intros _. exact Hstep.
    + intros _ Hlt. destruct Hhead as [rest ->]; [lia|].
      exists rest. rewrite Hstep, Hevs. now rewrite <- app_assoc.
    + intros Hno. contradiction.
  - apply stillProcessing_false in He.
    split; [|split; [|split]]; try (intros Hyes; contradiction).
    + split; [|intros Hyes; contradiction].
      intros [rest Hrest]. rewrite Hstep in Hrest. cbn [fst] in Hrest.
      apply app_inv_head in Hrest. discriminate Hrest.
    + intros _. exact Hstep.
Qed.

(** C1 at work: a first attempt answered 503 "object is still being
    processed" is retried with counter 1 after the wait. *)
Lemma attach_retries_iff_transient_witness :
  Client.updateCustomApp (Scenario.settlesAfter 1) Scenario.client
    "app-123" "k1" 0 []
  = Client.updateCustomApp (Scenario.settlesAfter 1) Scenario.client
      "app-123" "k1" 1
      [Http (attachRequest Scenario.client "app-123" "k1"); SetTimeout 5000].
Proof.
  refine (proj1 (proj2
    (attach_retries_iff_transient (Scenario.settlesAfter 1) Scenario.client
       "app-123" "k1" 0 [] Scenario.stillProcessing503 _ _)) _).
  - unfold Client.maxAttempts. lia.
  - reflexivity.
  - exists {| status := 503;
              errorData := ObjectBody (Some "object is still being processed") |},
      "object is still being processed", "object is ", "".
    repeat split; reflexivity.
Defined.

Lemma failedAttempts_snoc (req : Request) (n : nat) :
  failedAttempts req (S n)
  = failedAttempts req n ++ [Http req; SetTimeout Client.timeoutDuration].
Proof.
  induction n as [|n IH]; [reflexivity|].
  cbn [failedAttempts app] in *. do 2 f_equal. exact IH.
Qed.

(** C2 (counterexample).  Ten "still being processed" answers followed by a
    404: the eleventh failure surfaces the 404 error of axios, not the
    timeout error. *)
Lemma eleventh_failure_not_found_surfaces_api_error :
  let w := Scenario.notFoundAfter 10 in
  let req := attachRequest Scenario.client "app-123" "k1" in
  allTransient w req [] 10 = true
  /\ axios_api w (failedAttempts req 10) req = Rejected Scenario.notFound404
  /\ Client.updateCustomApp w Scenario.client "app-123" "k1" 0 []
     = (failedAttempts req 10 ++ [Http req], inl (Axios Scenario.notFound404))
  /\ snd (Client.updateCustomApp w Scenario.client "app-123" "k1" 0 [])
     <> inl timeoutError.
Proof.
  cbv zeta. split; [reflexivity|]. split; [reflexivity|].
  split; [vm_compute; reflexivity|]. vm_compute. discriminate.
Qed.

(** C2 (amended).  Starting at attempt 0, [updateCustomApp] sends at most
    eleven attach requests, the first and ten retries.  When the first ten
    were answered "still being processed" and the eleventh is rejected too,
    the cause decides: the transient answer leads, after one more wait, to the
    timeout error; any other failure surfaces the error of axios, as at every
    earlier attempt.  The timeout error is raised only after eleven transient
    answers. *)
Theorem eleventh_failure_by_cause :
  forall (w : World) (c : KandjiClient) (appId fileKey : string) (tr : Trace),
    let req := attachRequest c appId fileKey in
    let result := Client.updateCustomApp w c appId fileKey 0 tr in
    (exists evs, fst result = tr ++ evs
                 /\ patchesIn evs <= 1 + Client.maxAttempts)
    /\ (forall e,
          allTransient w req tr 10 = true ->
          axios_api w (tr ++ failedAttempts req 10) req = Rejected e ->
          (transientFailure e ->
           result = (tr ++ failedAttempts req 11, inl timeoutError))
          /\ (~ transientFailure e ->
              result = (tr ++ failedAttempts req 10 ++ [Http req],
                        inl (Axios e))))
    /\ (snd result = inl timeoutError -> allTransient w req tr 11 = true).
Proof.
  intros w c appId fileKey tr req result. split; [|split].
  - destruct (updateCustomApp_trace w c appId fileKey 0 tr)
      as [evs [Hevs [_ [Hcount _]]]].
    exists evs. split; [exact Hevs|]. unfold Client.maxAttempts in *. lia.
  - intros e Hall Hreply.
    assert (Hrun : result =
                   Client.updateCustomApp w c appId fileKey 10
                     (tr ++ failedAttempts req 10)).
    { unfold result.
      rewrite (updateCustomApp_transient_run w c appId fileKey 10 0 tr);
        [reflexivity | unfold Client.maxAttempts; lia | exact Hall]. }
    rewrite updateCustomApp_step in Hrun. cbv zeta in Hrun.
    change (Client.maxAttempts <? 10) with false in Hrun.
    fold req in Hrun. rewrite Hreply in Hrun.
    destruct (Client.stillProcessing (Axios e)) eqn:He.
    + apply stillProcessing_spec in He. split; [|intros Hno; contradiction].
      intros _. rewrite Hrun, updateCustomApp_above
        by (unfold Client.maxAttempts; lia).
      rewrite (failedAttempts_snoc req 10), app_assoc. reflexivity.
    + apply stillProcessing_false in He. split; [intros Hyes; contradiction|].
      intros _. rewrite Hrun, app_assoc. reflexivity.
  - intros Htimeout.
    destruct (updateCustomApp_shape w c appId fileKey 0 tr)
      as [n [Hall [Hn [[_ [d [_ Hres]]] | [[_ [e [_ [_ Hres]]]] | [Hgt _]]]]]].
    + fold result in Hres. rewrite Hres in Htimeout. discriminate Htimeout.
    + fold result in Hres. rewrite Hres in Htimeout. discriminate Htimeout.
    + unfold Client.maxAttempts in *.
      replace n with 11 in Hall by lia. exact Hall.
Qed.

(** C2 at work: a backend that never settles ends in the timeout error after
    eleven attach requests, each followed by a wait. *)
Lemma eleventh_failure_by_cause_witness :
  Client.updateCustomApp Scenario.neverSettles Scenario.client "app-123" "k1" 0 []
  = (failedAttempts (attachRequest Scenario.client "app-123" "k1") 11,
     inl timeoutError).
Proof.
  refine (proj1 (proj1 (proj2
    (eleventh_failure_by_cause Scenario.neverSettles Scenario.client
       "app-123" "k1" [])) Scenario.stillProcessing503 _ _) _).
  - reflexivity.
  - reflexivity.
  - exists {| status := 503;
              errorData := ObjectBody (Some "object is still being processed") |},
      "object is still being processed", "object is ", "".
    repeat split; reflexivity.
Defined.

(* ===================================================================== *)
(** ** [upload]                                                           *)
(* ===================================================================== *)

Section Upload.

Variable w : World.
Variable c : KandjiClient.

(** The body of [upload], call by call. *)
Lemma upload_run filepath appId tr :
  Client.upload w c filepath appId tr =
  match fs_realpathSync w filepath with
  | None => (tr, inl (ENOENT filepath))
  | Some _ =>
      let sign := uploadSignedUrlRequest c filepath in
      match axios_signed w tr sign with
      | Rejected e => (tr ++ [Http sign], inl (Axios e))
      | Resolved signedUrl =>
          let push := Client.storageRequest filepath signedUrl in
          match axios_storage w (tr ++ [Http sign]) push with
          | Rejected e => (tr ++ [Http sign; Http push], inl (Axios e))
          | Resolved _ =>
              match Client.updateCustomApp w c appId (file_key signedUrl) 0
                      (tr ++ [Http sign; Http push]) with
              | (tr', inr _) => (tr', inr tt)
              | (tr', inl e) => (tr', inl e)
              end
          end
      end
  end.
Proof.
  unfold Client.upload, bind, Client.realpathSync.
  destruct (fs_realpathSync w filepath) as [resolved|]; [|reflexivity].
  unfold ret at 1. unfold Client.getSignedUrl, axios at 1.
  fold (uploadSignedUrlRequest c filepath). cbv zeta.
  destruct (axios_signed w tr _) as [signedUrl|e]; [|reflexivity].
  rewrite uploadToS3_run.
  destruct (axios_storage w _ _) as [d|e];
    rewrite <- app_assoc; [|reflexivity].
  cbn [app].
  destruct (Client.updateCustomApp w c appId (file_key signedUrl) 0 _)
    as [tr' [e|d']]; reflexivity.
Qed.

(** A successful [upload]: one signed-target request, one storage push, then
    [n] attach attempts answered "still being processed" and the one that
    resolved, [n] being at most [maxAttempts]. *)
Lemma upload_success_shape filepath appId tr tr' :
  Client.upload w c filepath appId tr = (tr', inr tt) ->
  exists signedUrl n,
    let sign := uploadSignedUrlRequest c filepath in
    let push := Client.storageRequest filepath signedUrl in
    let req := attachRequest c appId (file_key signedUrl) in
    axios_signed w tr sign = Resolved signedUrl
    /\ n <= Client.maxAttempts
    /\ allTransient w req (tr ++ [Http sign; Http push]) n = true
    /\ tr' = tr ++ [Http sign; Http push] ++ failedAttempts req n ++ [Http req]
    /\ patchesIn (failedAttempts req n ++ [Http req]) = n + 1.
Proof.
  rewrite upload_run. cbv zeta.
  destruct (fs_realpathSync w filepath) as [resolved|]; [|discriminate].
  destruct (axios_signed w tr _) as [signedUrl|e] eqn:Hsign; [|discriminate].
  destruct (axios_storage w _ _) as [d|e]; [|discriminate].
  destruct (updateCustomApp_shape w c appId (file_key signedUrl) 0
              (tr ++ [Http (uploadSignedUrlRequest c filepath);
                      Http (Client.storageRequest filepath signedUrl)]))
    as [n [Hall [_ [[Hle [d' [_ Hres]]] | [[_ [e [_ [_ Hres]]]] | [_ Hres]]]]]];
    rewrite Hres; intros H; inversion H; subst.
  exists signedUrl, n. cbv zeta.
  split; [reflexivity|]. split; [lia|]. split; [exact Hall|].
  split; [now rewrite <- app_assoc|].
  rewrite patchesIn_app, patchesIn_failedAttempts. reflexivity.
Qed.

End Upload.

(** C3 (counterexample).  The attach attempts of a successful [upload] can
    be eleven: against a backend that answers the first ten attach requests
    with 503 "still being processed" and the eleventh with a 2xx, [upload]
    sends the signed-target request, the storage push and eleven attach
    requests, and succeeds; so the attach attempts are not at most ten. *)
Theorem upload_settles_at_eleventh_attach_attempt :
  let w := Scenario.settlesAfter 10 in
  let c := Scenario.client in
  let sign := uploadSignedUrlRequest c "/tmp/build.zip" in
  let push := Client.storageRequest "/tmp/build.zip" Scenario.target in
  let req := attachRequest c "app-123" "k1" in
  Client.upload w c "/tmp/build.zip" "app-123" []
  = ([Http sign; Http push] ++ failedAttempts req 10 ++ [Http req], inr tt)
  /\ patchesIn (fst (Client.upload w c "/tmp/build.zip" "app-123" [])) = 11
  /\ ~ patchesIn (fst (Client.upload w c "/tmp/build.zip" "app-123" [])) <= 10.
Proof.
  cbv zeta.
  assert (Hcount : patchesIn (fst (Client.upload (Scenario.settlesAfter 10)
                     Scenario.client "/tmp/build.zip" "app-123" [])) = 11)
    by (vm_compute; reflexivity).
  split; [vm_compute; reflexivity|]. split; [exact Hcount|].
  rewrite Hcount. lia.
Qed.

(** C3 (amended).  A successful [upload] sends exactly one signed-target
    request, then exactly one storage push, then between 1 and 11 attach
    requests (the first and at most ten retries), in that order and with
    nothing else but the waits between the attach requests; every attach
    request but the last was answered "still being processed", and the last
    one, the first to be resolved, ends the call. *)
Theorem successful_upload_order_and_attempts :
  forall (w : World) (c : KandjiClient) (filepath appId : string)
         (tr tr' : Trace),
    Client.upload w c filepath appId tr = (tr', inr tt) ->
    exists signedUrl n,
      let sign := uploadSignedUrlRequest c filepath in
      let push := Client.storageRequest filepath signedUrl in
      let req := attachRequest c appId (file_key signedUrl) in
      axios_signed w tr sign = Resolved signedUrl
      /\ tr' = tr ++ [Http sign; Http push]
                  ++ failedAttempts req n ++ [Http req]
      /\ patchesIn [Http sign; Http push] = 0
      /\ patchesIn (failedAttempts req n ++ [Http req]) = n + 1
      /\ 1 <= n + 1 <= 11
      /\ allTransient w req (tr ++ [Http sign; Http push]) n = true
      /\ exists updatedApp,
           axios_api w ((tr ++ [Http sign; Http push])
                        ++ failedAttempts req n) req
           = Resolved updatedApp.
Proof.
  intros w c filepath appId tr tr'. rewrite upload_run. cbv zeta.
  destruct (fs_realpathSync w filepath) as [resolved|]; [|discriminate].
  destruct (axios_signed w tr _) as [signedUrl|e] eqn:Hsign; [|discriminate].
  destruct (axios_storage w _ _) as [d|e]; [|discriminate].
  destruct (updateCustomApp_shape w c appId (file_key signedUrl) 0
              (tr ++ [Http (uploadSignedUrlRequest c filepath);
                      Http (Client.storageRequest filepath signedUrl)]))
    as [n [Hall [_ [[Hle [d' [Hreply Hres]]]
                   | [[_ [e [_ [_ Hres]]]] | [_ Hres]]]]]];
    rewrite Hres; intros H; inversion H; subst.
  exists signedUrl, n. cbv zeta.
  split; [reflexivity|]. split; [now rewrite <- app_assoc|].
  split; [reflexivity|].
  split; [now rewrite patchesIn_app, patchesIn_failedAttempts|].
  split; [unfold Client.maxAttempts in Hle; lia|].
  split; [exact Hall|]. now exists d'.
Qed.

(** C3 (amended) at work: one "still being processed" answer, then a 2xx:
    two attach requests. *)
Lemma successful_upload_order_and_attempts_witness :
  exists signedUrl n,
    axios_signed (Scenario.settlesAfter 1) []
      (uploadSignedUrlRequest Scenario.client "/tmp/build.zip")
    = Resolved signedUrl
    /\ 1 <= n + 1 <= 11.
Proof.
  destruct (successful_upload_order_and_attempts (Scenario.settlesAfter 1)
              Scenario.client "/tmp/build.zip" "app-123" []
              (fst (Client.upload (Scenario.settlesAfter 1) Scenario.client
                      "/tmp/build.zip" "app-123" [])))
    as [signedUrl [n [Hsign [_ [_ [_ [Hn _]]]]]]].
  - vm_compute. reflexivity.
  - exists signedUrl, n. split; [exact Hsign|exact Hn].
Defined.

(** C5.  When the storage push is rejected, [upload] ends there with the
    error of the push: the trace holds the signed-target request and the one
    push, and no [PATCH]. *)
Theorem storage_failure_is_fatal :
  forall (w : World) (c : KandjiClient) (filepath appId : string) (tr : Trace)
         (resolved : string) (signedUrl : SignedUrl) (e : AxiosError),
    let sign := uploadSignedUrlRequest c filepath in
    let push := Client.storageRequest filepath signedUrl in
    fs_realpathSync w filepath = Some resolved ->
    axios_signed w tr sign = Resolved signedUrl ->
    axios_storage w (tr ++ [Http sign]) push = Rejected e ->
    Client.upload w c filepath appId tr
    = (tr ++ [Http sign; Http push], inl (Axios e))
    /\ patchesIn [Http sign; Http push] = 0
    /\ Client.uploadToS3 w filepath signedUrl (tr ++ [Http sign])
       = (tr ++ [Http sign] ++ [Http push], inl (Axios e)).
Proof.
  intros w c filepath appId tr resolved signedUrl e sign push Hfs Hsign Hpush.
  split; [|split].
  - rewrite upload_run, Hfs. cbv zeta. fold sign. rewrite Hsign.
    fold push. now rewrite Hpush.
  - reflexivity.
  - rewrite uploadToS3_run. fold push. rewrite Hpush.
    now rewrite <- app_assoc.
Qed.

(** C5 at work: a storage backend that answers 403. *)
Lemma storage_failure_is_fatal_witness :
  Client.upload Scenario.storageDown Scenario.client "/tmp/build.zip"
    "app-123" []
  = ([Http (uploadSignedUrlRequest Scenario.client "/tmp/build.zip");
      Http (Client.storageRequest "/tmp/build.zip" Scenario.target)],
     inl (Axios Scenario.accessDenied403)).
Proof.
  refine (proj1
    (storage_failure_is_fatal Scenario.storageDown Scenario.client
       "/tmp/build.zip" "app-123" [] "/tmp/build.zip" Scenario.target
       Scenario.accessDenied403 _ _ _)); reflexivity.
Defined.

(** C9.  Every attach attempt of one call of [updateCustomApp] is the same
    request: a [PATCH] of [/api/v1/library/custom-apps/{appId}] with body
    [{ file_key: fileKey }]; the recursion changes the counter only.  In
    [upload] the file key is the [file_key] of the signed target. *)
Theorem attach_attempts_repeat_one_request :
  forall (w : World) (c : KandjiClient) (appId fileKey : string)
         (attempt : nat) (tr : Trace),
    let req := attachRequest c appId fileKey in
    (method req = PATCH
     /\ url req = baseUrl c +++ "/api/v1/library/custom-apps/" +++ appId
     /\ data req = JsonObject [("file_key", fileKey)])
    /\ (exists evs,
          fst (Client.updateCustomApp w c appId fileKey attempt tr) = tr ++ evs
          /\ forall r, In (Http r) evs -> r = req)
    /\ (forall e,
          axios_api w tr req = Rejected e ->
          Client.stillProcessing (Axios e) = true ->
          attempt <= Client.maxAttempts ->
          Client.updateCustomApp w c appId fileKey attempt tr
          = Client.updateCustomApp w c appId fileKey (attempt + 1)
              (tr ++ [Http req; SetTimeout 5000]))
    /\ (forall filepath, exists evs,
          fst (Client.upload w c filepath appId tr) = tr ++ evs
          /\ forall r, In (Http r) evs -> method r = PATCH ->
               exists signedUrl,
                 axios_signed w tr (uploadSignedUrlRequest c filepath)
                 = Resolved signedUrl
                 /\ r = attachRequest c appId (file_key signedUrl)).
Proof.
  intros w c appId fileKey attempt tr req.
  split; [repeat split|]. split; [|split].
  - destruct (updateCustomApp_trace w c appId fileKey attempt tr)
      as [evs [Hevs [Hall _]]].
    exists evs. split; [exact Hevs|]. intros r Hin.
    rewrite Forall_forall in Hall. destruct (Hall _ Hin) as [H|H].
    + now inversion H.
    + discriminate H.
  - intros e Hreply He Hle. rewrite updateCustomApp_step.
    assert (Hlt : (Client.maxAttempts <? attempt) = false)
      by (apply Nat.ltb_ge; lia).
    rewrite Hlt. cbv zeta. fold req. now rewrite Hreply, He.
  - intros filepath. rewrite upload_run. cbv zeta.
    destruct (fs_realpathSync w filepath) as [resolved|].
    2: { exists []. split; [now rewrite app_nil_r|]. intros r []. }
    destruct (axios_signed w tr _) as [signedUrl|e] eqn:Hsign.
    2: { eexists. split; [reflexivity|]. intros r [H|[]] Hm.
         inversion H; subst. discriminate Hm. }
    destruct (axios_storage w _ _) as [d|e].
    2: { eexists. split; [reflexivity|]. intros r [H|[H|[]]] Hm;
         inversion H; subst; discriminate Hm. }
    destruct (updateCustomApp_trace w c appId (file_key signedUrl) 0
                (tr ++ [Http (uploadSignedUrlRequest c filepath);
                        Http (Client.storageRequest filepath signedUrl)]))
      as [evs [Hevs [Hall _]]].
    destruct (Client.updateCustomApp w c appId (file_key signedUrl) 0 _)
      as [tr' [e|d']]; cbn [fst] in *; subst tr'.
    all: exists ([Http (uploadSignedUrlRequest c filepath);
                  Http (Client.storageRequest filepath signedUrl)] ++ evs).
    all: split; [now rewrite <- app_assoc|].
    all: intros r Hin Hm; exists signedUrl; split; [reflexivity|].
    all: destruct Hin as [H|[H|Hin]];
      [inversion H; subst; discriminate Hm
      |inversion H; subst; discriminate Hm|].
    all: rewrite Forall_forall in Hall; destruct (Hall _ Hin) as [H|H];
      [now inversion H | discriminate H].
Qed.

(* ===================================================================== *)
(** ** The multipart body of [uploadToS3]                                 *)
(* ===================================================================== *)

Lemma fold_appendPostData (entries : list (string * string)) :
  forall form : FormData,
    fold_left Client.appendPostData entries form
    = form ++ map postDataField (filter notNamedKey entries).
Proof.
  induction entries as [|[key value] entries IH]; intros form.
  - cbn. now rewrite app_nil_r.
  - cbn [fold_left filter]. rewrite IH.
    unfold Client.appendPostData, notNamedKey at 2. cbn [fst].
    destruct (String.eqb key "key"); cbn [negb]; [reflexivity|].
    unfold Client.append. cbn [map]. now rewrite <- app_assoc.
Qed.

Lemma no_key_among_postDataFields (entries : list (string * string)) :
  filter (fieldNamed "key") (map postDataField (filter notNamedKey entries))
  = [].
Proof.
  induction entries as [|[key value] entries IH]; [reflexivity|].
  cbn [filter]. unfold notNamedKey at 1. cbn [fst].
  destruct (String.eqb key "key") eqn:Hkey; cbn [negb]; [exact IH|].
  cbn [map filter]. unfold fieldNamed at 1, postDataField at 1. cbn [fst].
  rewrite Hkey. exact IH.
Qed.

(** C4.  The form [uploadToS3] sends starts with the field [key] holding the
    file key of the signed target, goes on with the entries of [post_data] in
    their order, those named [key] left out, and ends with the file; so it
    holds exactly one field named [key], whatever [post_data] holds. *)
Theorem multipart_key_once_and_first :
  forall (filepath : string) (signedUrl : SignedUrl),
    let form := Client.buildFormData filepath signedUrl in
    form = ("key", Text (file_key signedUrl))
             :: map postDataField (filter notNamedKey (post_data signedUrl))
             ++ [("file", ReadStream filepath)]
    /\ length (filter (fieldNamed "key") form) = 1
    /\ data (Client.storageRequest filepath signedUrl) = MultipartForm form.
Proof.
  intros filepath signedUrl form.
  assert (Hform : form = ("key", Text (file_key signedUrl))
             :: map postDataField (filter notNamedKey (post_data signedUrl))
             ++ [("file", ReadStream filepath)]).
  { unfold form, Client.buildFormData. cbv zeta.
    rewrite fold_appendPostData. unfold Client.append. reflexivity. }
  split; [exact Hform|]. split; [|reflexivity].
  rewrite Hform. cbn [filter].
  change (fieldNamed "key" ("key", Text (file_key signedUrl))) with true.
  cbn [length]. rewrite filter_app, no_key_among_postDataFields. reflexivity.
Qed.

(* ===================================================================== *)
(** ** The constructor                                                    *)
(* ===================================================================== *)

Lemma truthy_Some (s : string) : truthy (Some s) = true <-> s <> EmptyString.
Proof.
  destruct s; cbn; split; congruence.
Qed.

(** C10.  [new KandjiClient(baseUrl, apiToken)] throws "Base URL and API
    token are required." when either argument is missing or empty, with no
    effect on the trace; otherwise it yields a client holding both texts as
    they were given, and they are what every request to the API is built from:
    the URL starts with the base URL and the [Authorization] header is
    [Bearer] followed by the token.  (The storage push goes to the signed URL
    and carries neither.) *)
Theorem constructor_requires_url_and_token :
  forall (b t : option string) (tr : Trace),
    ((b = None \/ b = Some EmptyString \/ t = None \/ t = Some EmptyString) ->
     Client.constructor b t tr
     = (tr, inl (Error "Base URL and API token are required.")))
    /\ (forall bs ts,
          b = Some bs -> t = Some ts -> bs <> EmptyString -> ts <> EmptyString ->
          Client.constructor b t tr
          = (tr, inr {| baseUrl := bs; apiToken := ts |}))
    /\ (forall c method endpoint body,
          let req := Client.requestOf c method endpoint body in
          url req = baseUrl c +++ endpoint
          /\ In ("Authorization", "Bearer " +++ apiToken c) (headers req))
    /\ (forall c filename,
          let req := Client.signedUrlRequest c filename in
          url req = baseUrl c +++ "/api/v1/library/custom-apps/upload"
          /\ In ("Authorization", "Bearer " +++ apiToken c) (headers req)).
Proof.
  intros b t tr. split; [|split; [|split]].
  - unfold Client.constructor.
    destruct b as [[|? ?]|], t as [[|? ?]|]; intros H; try reflexivity.
    destruct H as [H | [H | [H | H]]]; discriminate H.
  - intros bs ts -> -> Hb Ht. unfold Client.constructor.
    apply truthy_Some in Hb, Ht. now rewrite Hb, Ht.
  - intros c method endpoint body req. split; [reflexivity|now left].
  - intros c filename req. split; [reflexivity|now left].
Qed.

(** C10 at work: both arguments given, and the token missing. *)
Lemma constructor_requires_url_and_token_witness :
  Client.constructor (Some "https://tenant.api.kandji.io") (Some "secret") []
  = ([], inr Scenario.client)
  /\ Client.constructor (Some "https://tenant.api.kandji.io") None []
     = ([], inl (Error "Base URL and API token are required.")).
Proof.
  split.
  - refine (proj1 (proj2
      (constructor_requires_url_and_token
         (Some "https://tenant.api.kandji.io") (Some "secret") []))
      _ _ eq_refl eq_refl _ _); discriminate.
  - refine (proj1
      (constructor_requires_url_and_token
         (Some "https://tenant.api.kandji.io") None []) _).
    right; right; left. reflexivity.
Defined.

(* ===================================================================== *)
(** ** The release plugins                                                *)
(* ===================================================================== *)

Section Plugins.

Variable w : World.

Lemma publish_gate (pluginConfig : Plugin.PluginConfig)
  (context : Plugin.Context) :
  Plugin.publish w pluginConfig context =
  if releaseGate (orDefault (Plugin.release pluginConfig) true)
       (orDefault (Plugin.preRelease pluginConfig) false)
       (isPrereleaseOf (Plugin.branch_prerelease context))
  then Plugin.publishRelease w pluginConfig context
  else ret tt.
Proof.
  unfold Plugin.publish, releaseGate. cbv zeta.
  destruct (orDefault (Plugin.release pluginConfig) true),
    (orDefault (Plugin.preRelease pluginConfig) false),
    (isPrereleaseOf (Plugin.branch_prerelease context)); reflexivity.
Qed.

Lemma kandjiSemanticReleasePlugin_gate (config : ReleasePlugin.Config)
  (context : ReleasePlugin.Context) :
  ReleasePlugin.kandjiSemanticReleasePlugin w config context =
  if releaseGate (orDefault (ReleasePlugin.release config) true)
       (orDefault (ReleasePlugin.preRelease config) false)
       (isPrereleaseOf (ReleasePlugin.branch_prerelease context))
  then ReleasePlugin.runRelease w config
  else ret tt.
Proof.
  unfold ReleasePlugin.kandjiSemanticReleasePlugin, releaseGate. cbv zeta.
  destruct (orDefault (ReleasePlugin.release config) true),
    (orDefault (ReleasePlugin.preRelease config) false),
    (isPrereleaseOf (ReleasePlugin.branch_prerelease context)); reflexivity.
Qed.

(** [publish] below its gate, call by call. *)
Lemma publishRelease_run (pluginConfig : Plugin.PluginConfig)
  (context : Plugin.Context) (tr : Trace) :
  Plugin.publishRelease w pluginConfig context tr =
  match Client.constructor (env_KANDJI_BASE_URL w) (env_KANDJI_API_TOKEN w) tr
  with
  | (tr0, inl e) => (tr0, inl e)
  | (tr0, inr kandjiClient) =>
      match Plugin.resolveAsset w (Plugin.asset pluginConfig)
              (Plugin.nextRelease_version context) tr0 with
      | (tr1, inl e) => (tr1, inl e)
      | (tr1, inr resolvedAsset) =>
          match Client.upload w kandjiClient resolvedAsset
                  (JsString.template (Plugin.appID pluginConfig)) tr1 with
          | (tr2, inl e) => (tr2, inl e)
          | (tr2, inr _) =>
              match orDefault (Plugin.postinstallScript pluginConfig) [] with
              | [] => (tr2, inr tt)
              | lines =>
                  afterRequest w tr2
                    (postinstallRequest kandjiClient
                       (Plugin.appID pluginConfig) lines)
              end
          end
      end
  end.
Proof.
  unfold Plugin.publishRelease, bind, tryCatch, throw. cbv zeta.
  destruct (Client.constructor _ _ tr) as [tr0 [e|kandjiClient]];
    [reflexivity|].
  destruct (Plugin.resolveAsset w _ _ tr0) as [tr1 [e|resolvedAsset]];
    [reflexivity|].
  destruct (Client.upload w kandjiClient resolvedAsset _ tr1) as [tr2 [e|[]]];
    [reflexivity|].
  destruct (orDefault (Plugin.postinstallScript pluginConfig) [])
    as [|line lines]; [reflexivity|].
  cbn [length Nat.ltb Nat.leb]. rewrite request_run.
  unfold afterRequest, postinstallRequest, ret.
  destruct (axios_api w tr2 _); reflexivity.
Qed.

(** [kandjiSemanticReleasePlugin] below its gate, call by call. *)
Lemma runRelease_run (config : ReleasePlugin.Config) (tr : Trace) :
  ReleasePlugin.runRelease w config tr =
  if negb (truthy (ReleasePlugin.appID config))
     || negb (truthy (ReleasePlugin.asset config)) then
    (tr, inl (Error "Invalid configuration: appID and asset are required."))
  else if negb (truthy (env_KANDJI_BASE_URL w))
          || negb (truthy (env_KANDJI_API_TOKEN w)) then
    (tr, inl (Error
      "Environment variables KANDJI_BASE_URL and KANDJI_API_TOKEN must be set."))
  else
    match Client.constructor (env_KANDJI_BASE_URL w) (env_KANDJI_API_TOKEN w) tr
    with
    | (tr0, inl e) => (tr0, inl e)
    | (tr0, inr kandjiClient) =>
        let asset := JsString.template (ReleasePlugin.asset config) in
        if fs_access w asset then
          match Client.upload w kandjiClient asset
                  (JsString.template (ReleasePlugin.appID config)) tr0 with
          | (tr2, inl e) => (tr2, inl e)
          | (tr2, inr _) =>
              match orDefault (ReleasePlugin.postinstall_script config) [] with
              | [] => (tr2, inr tt)
              | lines =>
                  afterRequest w tr2
                    (postinstallRequest kandjiClient
                       (ReleasePlugin.appID config) lines)
              end
          end
        else (tr0, inl (ENOENT asset))
    end.
Proof.
  unfold ReleasePlugin.runRelease. cbv zeta.
  destruct (negb (truthy (ReleasePlugin.appID config))
            || negb (truthy (ReleasePlugin.asset config))); [reflexivity|].
  destruct (negb (truthy (env_KANDJI_BASE_URL w))
            || negb (truthy (env_KANDJI_API_TOKEN w))); [reflexivity|].
  unfold bind, tryCatch, throw, ReleasePlugin.access.
  destruct (Client.constructor _ _ tr) as [tr0 [e|kandjiClient]];
    [reflexivity|].
  destruct (fs_access w _); [|reflexivity]. unfold ret at 1.
  destruct (Client.upload w kandjiClient _ _ tr0) as [tr2 [e|[]]];
    [reflexivity|].
  destruct (orDefault (ReleasePlugin.postinstall_script config) [])
    as [|line lines]; [reflexivity|].
  cbn [length Nat.ltb Nat.leb]. rewrite request_run.
  unfold afterRequest, postinstallRequest, ret.
  destruct (axios_api w tr2 _); reflexivity.
Qed.

End Plugins.

(** C6.  For boolean [release], [preRelease] and [branch.prerelease], both
    plugin entry points go on to their release statements exactly when the
    branch is a pre-release branch and [preRelease] is set, or it is not and
    [release] is set; in every other case they return at once, the trace
    untouched. *)
Theorem release_gate :
  forall (w : World) (release preRelease branchPrerelease : bool)
         (appID asset : option string) (script : option (list string))
         (version : option string),
    let pluginConfig :=
      {| Plugin.appID := appID; Plugin.asset := asset;
         Plugin.release := Some release;
         Plugin.preRelease := Some preRelease;
         Plugin.postinstallScript := script |} in
    let context :=
      {| Plugin.branch_prerelease := PrereleaseBool branchPrerelease;
         Plugin.nextRelease_version := version |} in
    let config :=
      {| ReleasePlugin.appID := appID; ReleasePlugin.asset := asset;
         ReleasePlugin.preRelease := Some preRelease;
         ReleasePlugin.release := Some release;
         ReleasePlugin.postinstall_script := script |} in
    let context' :=
      {| ReleasePlugin.branch_prerelease := PrereleaseBool branchPrerelease |} in
    Plugin.publish w pluginConfig context
    = (if (branchPrerelease && preRelease)
          || (negb branchPrerelease && release)
       then Plugin.publishRelease w pluginConfig context
       else fun tr => (tr, inr tt))
    /\ ReleasePlugin.kandjiSemanticReleasePlugin w config context'
       = (if (branchPrerelease && preRelease)
             || (negb branchPrerelease && release)
          then ReleasePlugin.runRelease w config
          else fun tr => (tr, inr tt)).
Proof.
  intros w release preRelease branchPrerelease appID asset script version.
  cbv zeta. rewrite publish_gate, kandjiSemanticReleasePlugin_gate.
  split; reflexivity.
Qed.

Lemma resolveAsset_run (w : World) (assetPattern version : string) (tr : Trace) :
  version <> EmptyString ->
  let processed := Plugin.processPattern assetPattern version in
  Plugin.resolveAsset w (Some assetPattern) (Some version) tr =
  match glob_sync w processed with
  | [] => (tr, inl (Plugin.noFilesFound processed))
  | [file] => (tr, inr file)
  | _ :: _ :: _ => (tr, inl (Plugin.multipleFilesMatched processed))
  end.
Proof.
  intros Hv processed. unfold Plugin.resolveAsset.
  apply truthy_Some in Hv. rewrite Hv. cbn [negb JsString.template].
  cbv zeta. fold processed.
  destruct (glob_sync w processed) as [|file [|file' files]]; reflexivity.
Qed.

(** C7.  With a release version at hand, [resolveAsset] returns the one
    matched path when the processed pattern matches exactly one file, and
    throws when it matches none ("No files found ...") or several ("Multiple
    files matched ..."); it sends nothing, and both [prepare] and [publish]
    end with its error before any request is made. *)
Theorem resolveAsset_exactly_one_match :
  forall (w : World) (assetPattern version : string) (tr : Trace),
    version <> EmptyString ->
    let processed := Plugin.processPattern assetPattern version in
    let matched := glob_sync w processed in
    let resolved := Plugin.resolveAsset w (Some assetPattern) (Some version) tr in
    (forall file, matched = [file] -> resolved = (tr, inr file))
    /\ (matched = [] -> resolved = (tr, inl (Plugin.noFilesFound processed)))
    /\ (1 < length matched ->
        resolved = (tr, inl (Plugin.multipleFilesMatched processed)))
    /\ (forall pluginConfig context,
          Plugin.asset pluginConfig = Some assetPattern ->
          Plugin.nextRelease_version context = Some version ->
          length matched <> 1 ->
          (exists e, Plugin.publishRelease w pluginConfig context tr
                     = (tr, inl e))
          /\ (exists e, Plugin.prepare w pluginConfig context tr = (tr, inl e))).
Proof.
  intros w assetPattern version tr Hv processed matched resolved.
  assert (Hrun := resolveAsset_run w assetPattern version tr Hv).
  cbv zeta in Hrun. fold processed matched resolved in Hrun.
  split; [|split; [|split]].
  - intros file Hm. now rewrite Hrun, Hm.
  - intros Hm. now rewrite Hrun, Hm.
  - intros Hm. rewrite Hrun.
    destruct matched as [|file [|file' files]]; cbn in Hm; [lia|lia|reflexivity].
  - intros pluginConfig context Hasset Hversion Hm.
    assert (Hthrows : exists e, resolved = (tr, inl e)).
    { rewrite Hrun. destruct matched as [|file [|file' files]];
        [eauto | now cbn in Hm | eauto]. }
    destruct Hthrows as [e He]. split.
    + rewrite publishRelease_run, Hasset, Hversion.
      unfold Client.constructor.
      destruct (negb (truthy (env_KANDJI_BASE_URL w))
                || negb (truthy (env_KANDJI_API_TOKEN w)));
        [now eexists|].
      unfold ret at 1. fold resolved. rewrite He. now exists e.
    + unfold Plugin.prepare, bind. rewrite Hasset, Hversion.
      fold resolved. rewrite He. now exists e.
Qed.

(** C7 at work: the pattern of version 1.2.3 matching one file. *)
Lemma resolveAsset_exactly_one_match_witness :
  Plugin.resolveAsset (Scenario.settlesAfter 0)
    (Some "dist/*-${nextRelease.version}.pkg") (Some "1.2.3") []
  = ([], inr "dist/app.pkg").
Proof.
  refine (proj1
    (resolveAsset_exactly_one_match (Scenario.settlesAfter 0)
       "dist/*-${nextRelease.version}.pkg" "1.2.3" [] _) "dist/app.pkg" _).
  - discriminate.
  - reflexivity.
Defined.

(** C8.  In both release plugins, once [upload] has succeeded and a
    non-empty post-install script is configured, exactly one more request
    follows: the [PATCH] of the app with [postinstall_script] set to the lines
    joined by newlines.  When it is rejected its error is thrown and nothing
    else is sent: the attach of the file key stays as it is. *)
Theorem postinstall_script_single_patch :
  forall (w : World) (lines : list string) (tr tr1 : Trace)
         (kandjiClient : KandjiClient),
    lines <> [] ->
    Client.constructor (env_KANDJI_BASE_URL w) (env_KANDJI_API_TOKEN w) tr
    = (tr, inr kandjiClient) ->
    (forall appID,
        let req := postinstallRequest kandjiClient appID lines in
        method req = PATCH
        /\ url req = baseUrl kandjiClient +++ "/api/v1/library/custom-apps/"
                     +++ JsString.template appID
        /\ data req = JsonObject
                        [("postinstall_script",
                          String.concat JsString.newline lines)])
    /\ (forall pluginConfig context resolvedAsset,
          releaseGate (orDefault (Plugin.release pluginConfig) true)
            (orDefault (Plugin.preRelease pluginConfig) false)
            (isPrereleaseOf (Plugin.branch_prerelease context)) = true ->
          Plugin.postinstallScript pluginConfig = Some lines ->
          Plugin.resolveAsset w (Plugin.asset pluginConfig)
            (Plugin.nextRelease_version context) tr = (tr, inr resolvedAsset) ->
          Client.upload w kandjiClient resolvedAsset
            (JsString.template (Plugin.appID pluginConfig)) tr = (tr1, inr tt) ->
          let req :=
            postinstallRequest kandjiClient (Plugin.appID pluginConfig) lines in
          Plugin.publish w pluginConfig context tr
          = (tr1 ++ [Http req],
             match axios_api w tr1 req with
             | Resolved _ => inr tt
             | Rejected e => inl (Axios e)
             end))
    /\ (forall config context asset,
          releaseGate (orDefault (ReleasePlugin.release config) true)
            (orDefault (ReleasePlugin.preRelease config) false)
            (isPrereleaseOf (ReleasePlugin.branch_prerelease context)) = true ->
          ReleasePlugin.postinstall_script config = Some lines ->
          ReleasePlugin.asset config = Some asset ->
          asset <> EmptyString ->
          truthy (ReleasePlugin.appID config) = true ->
          fs_access w asset = true ->
          Client.upload w kandjiClient asset
            (JsString.template (ReleasePlugin.appID config)) tr = (tr1, inr tt) ->
          let req :=
            postinstallRequest kandjiClient (ReleasePlugin.appID config) lines in
          ReleasePlugin.kandjiSemanticReleasePlugin w config context tr
          = (tr1 ++ [Http req],
             match axios_api w tr1 req with
             | Resolved _ => inr tt
             | Rejected e => inl (Axios e)
             end)).
Proof.
  intros w lines tr tr1 kandjiClient Hlines Hnew.
  split; [|split].
  - intros appID req. repeat split.
  - intros pluginConfig context resolvedAsset Hgate Hscript Hasset Hupload req.
    rewrite publish_gate, Hgate, publishRelease_run, Hnew, Hasset, Hupload.
    rewrite Hscript. cbn [orDefault].
    destruct lines as [|line lines]; [contradiction|reflexivity].
  - intros config context asset Hgate Hscript Hasset Hne HappID Haccess
      Hupload req.
    rewrite kandjiSemanticReleasePlugin_gate, Hgate, runRelease_run.
    apply truthy_Some in Hne. rewrite HappID, Hasset, Hne. cbn [negb orb].
    assert (Henv : negb (truthy (env_KANDJI_BASE_URL w))
                   || negb (truthy (env_KANDJI_API_TOKEN w)) = false).
    { unfold Client.constructor in Hnew.
      destruct (negb (truthy (env_KANDJI_BASE_URL w))
                || negb (truthy (env_KANDJI_API_TOKEN w)));
        [discriminate Hnew|reflexivity]. }
    rewrite Henv, Hnew. cbv zeta. cbn [JsString.template].
    rewrite Haccess, Hupload, Hscript. cbn [orDefault].
    destruct lines as [|line lines]; [contradiction|reflexivity].
Qed.

(** C8 at work: the attach accepted, the script patch answered 404. *)
Lemma postinstall_script_single_patch_witness :
  let w := Scenario.scriptRejected in
  let script := ["#!/bin/bash"; "echo installed"] in
  let tr1 := fst (Client.upload w Scenario.client "dist/app.pkg" "app-123" []) in
  Plugin.publish w (Scenario.pluginConfig script) Scenario.context []
  = (tr1 ++ [Http (postinstallRequest Scenario.client (Some "app-123") script)],
     inl (Axios Scenario.notFound404)).
Proof.
  cbv zeta.
  refine (proj1 (proj2
    (postinstall_script_single_patch Scenario.scriptRejected
       ["#!/bin/bash"; "echo installed"] []
       (fst (Client.upload Scenario.scriptRejected Scenario.client
               "dist/app.pkg" "app-123" []))
       Scenario.client _ _))
    (Scenario.pluginConfig ["#!/bin/bash"; "echo installed"])
    Scenario.context "dist/app.pkg" _ _ _ _).
  - discriminate.
  - reflexivity.
  - reflexivity.
  - reflexivity.
  - vm_compute. reflexivity.
  - vm_compute. reflexivity.
Defined.

(** C9 at work: the retry of a first attempt sends the same request. *)
Lemma attach_attempts_repeat_one_request_witness :
  Client.updateCustomApp (Scenario.settlesAfter 1) Scenario.client
    "app-123" "k1" 0 []
  = Client.updateCustomApp (Scenario.settlesAfter 1) Scenario.client
      "app-123" "k1" 1
      [Http (attachRequest Scenario.client "app-123" "k1"); SetTimeout 5000].
Proof.
  refine (proj1 (proj2 (proj2
    (attach_attempts_repeat_one_request (Scenario.settlesAfter 1)
       Scenario.client "app-123" "k1" 0 [])))
    Scenario.stillProcessing503 _ _ _).
  - reflexivity.
  - reflexivity.
  - unfold Client.maxAttempts. lia.
Defined.

(* ===================================================================== *)
(** ** The scenarios of the specification, run                            *)
(* ===================================================================== *)

(** One 503 "still being processed", then a 2xx: success after two attach
    attempts and one wait. *)
Example upload_settles_at_second_attempt :
  let c := Scenario.client in
  let req := attachRequest c "app-123" "k1" in
  Client.upload (Scenario.settlesAfter 1) c "/tmp/build.zip" "app-123" []
  = ([Http (uploadSignedUrlRequest c "/tmp/build.zip");
      Http (Client.storageRequest "/tmp/build.zip" Scenario.target);
      Http req; SetTimeout 5000; Http req],
     inr tt).
Proof. vm_compute. reflexivity. Qed.

(** A 404 on the first attach attempt: the error at once, no wait. *)
Example upload_fails_on_not_found :
  let c := Scenario.client in
  Client.upload (Scenario.notFoundAfter 0) c "/tmp/build.zip" "app-123" []
  = ([Http (uploadSignedUrlRequest c "/tmp/build.zip");
      Http (Client.storageRequest "/tmp/build.zip" Scenario.target);
      Http (attachRequest c "app-123" "k1")],
     inl (Axios Scenario.notFound404)).
Proof. vm_compute. reflexivity. Qed.

(** A signed target whose [post_data] holds a field named [key]. *)
Example form_of_target_with_key :
  Client.buildFormData "/tmp/build.zip" Scenario.targetWithKey
  = [("key", Text "k1"); ("policy", Text "p"); ("signature", Text "s");
     ("file", ReadStream "/tmp/build.zip")].
Proof. reflexivity. Qed.

(** The ES module plugin on a release branch, the script patch rejected. *)
Example release_plugin_script_rejected :
  let script := ["#!/bin/bash"; "echo installed"] in
  ReleasePlugin.kandjiSemanticReleasePlugin Scenario.scriptRejected
    (Scenario.config script)
    {| ReleasePlugin.branch_prerelease := PrereleaseUndefined |} []
  = (fst (Client.upload Scenario.scriptRejected Scenario.client
            "dist/app.pkg" "app-123" [])
     ++ [Http (postinstallRequest Scenario.client (Some "app-123") script)],
     inl (Axios Scenario.notFound404)).
Proof. vm_compute. reflexivity. Qed.

(** The version placeholder of an asset pattern. *)
Example processPattern_version :
  Plugin.processPattern "dist/*-${nextRelease.version}.pkg" "1.2.3"
  = "dist/*-1.2.3.pkg".
Proof. reflexivity. Qed.

(* ===================================================================== *)
(** ** More of the attach loop                                            *)
(* ===================================================================== *)

Lemma totalWait_app (tr1 tr2 : Trace) :
  totalWait (tr1 ++ tr2) = totalWait tr1 + totalWait tr2.
Proof.
  induction tr1 as [|[req|ms] tr1 IH]; cbn [app totalWait]; lia.
Qed.

Lemma waitsIn_app (tr1 tr2 : Trace) :
  waitsIn (tr1 ++ tr2) = waitsIn tr1 + waitsIn tr2.
Proof. unfold waitsIn. now rewrite filter_app, length_app. Qed.

Lemma httpIn_app (tr1 tr2 : Trace) :
  httpIn (tr1 ++ tr2) = httpIn tr1 + httpIn tr2.
Proof. unfold httpIn. now rewrite filter_app, length_app. Qed.

Lemma failedAttempts_counts (c : KandjiClient) (appId fileKey : string) (n : nat) :
  let evs := failedAttempts (attachRequest c appId fileKey) n in
  waitsIn evs = n /\ httpIn evs = n
  /\ totalWait evs = Client.timeoutDuration * n.
Proof.
  cbv zeta. induction n as [|n [IHw [IHh IHt]]]; [now cbn|].
  cbn [failedAttempts totalWait].
  unfold waitsIn, httpIn in *. cbn [filter isWait isHttp length].
  rewrite IHw, IHh, IHt. repeat split. unfold Client.timeoutDuration. lia.
Qed.

(** A run of [n] transient answers followed by an attempt that is resolved,
    or rejected for another reason, within the bound. *)
Lemma updateCustomApp_after_transients (w : World) (c : KandjiClient)
  (appId fileKey : string) (tr : Trace) (n : nat) :
  let req := attachRequest c appId fileKey in
  n <= Client.maxAttempts ->
  allTransient w req tr n = true ->
  Client.updateCustomApp w c appId fileKey 0 tr =
  match axios_api w (tr ++ failedAttempts req n) req with
  | Resolved d => (tr ++ failedAttempts req n ++ [Http req], inr d)
  | Rejected e =>
      if Client.stillProcessing (Axios e) then
        Client.updateCustomApp w c appId fileKey (n + 1)
          (tr ++ failedAttempts req (S n))
      else (tr ++ failedAttempts req n ++ [Http req], inl (Axios e))
  end.
Proof.
  intros req Hn Hall.
  rewrite (updateCustomApp_transient_run w c appId fileKey n 0 tr);
    [|unfold Client.maxAttempts in *; lia | exact Hall].
  cbn [Nat.add]. rewrite updateCustomApp_step.
  assert (Hlt : (Client.maxAttempts <? n) = false) by (apply Nat.ltb_ge; lia).
  rewrite Hlt. cbv zeta. fold req.
  destruct (axios_api w _ req) as [d|e]; [now rewrite app_assoc|].
  destruct (Client.stillProcessing (Axios e));
    [|now rewrite app_assoc].
  rewrite failedAttempts_snoc, app_assoc. reflexivity.
Qed.

(** X1.  [updateCustomApp] never hands a transient rejection to its caller:
    when the call, from any start counter, ends with an error of axios, that
    error is not a 503 whose [detail] text holds "still being processed"; it
    is the rejection of the last attach request sent, and nothing follows that
    request on the trace. *)
Theorem attach_loop_never_surfaces_transient_error :
  forall (w : World) (c : KandjiClient) (appId fileKey : string)
         (attempt : nat) (tr : Trace) (e : AxiosError),
    let req := attachRequest c appId fileKey in
    let result := Client.updateCustomApp w c appId fileKey attempt tr in
    snd result = inl (Axios e) ->
    ~ transientFailure e
    /\ exists sent,
         fst result = sent ++ [Http req]
         /\ axios_api w sent req = Rejected e.
Proof.
  intros w c appId fileKey attempt tr e req result Herr.
  destruct (updateCustomApp_shape w c appId fileKey attempt tr)
    as [n [_ [_ [[_ [d [_ Hres]]]
                | [[_ [e' [Hreply [He Hres]]]] | [_ Hres]]]]]];
    fold result in Hres; rewrite Hres in Herr |- *; cbn [fst snd] in *.
  - discriminate Herr.
  - inversion Herr; subst e'. split; [now apply stillProcessing_false|].
    exists (tr ++ failedAttempts req n). split; [now rewrite app_assoc|].
    exact Hreply.
  - discriminate Herr.
Qed.

(** X1 at work: a 404 after ten transient answers. *)
Lemma attach_loop_never_surfaces_transient_error_witness :
  ~ transientFailure Scenario.notFound404.
Proof.
  refine (proj1 (attach_loop_never_surfaces_transient_error
                   (Scenario.notFoundAfter 10) Scenario.client "app-123" "k1"
                   0 [] Scenario.notFound404 _)).
  vm_compute. reflexivity.
Defined.

(** X2.  [updateCustomApp], started at counter 0, returns the updated app
    exactly when, after some [n <= 10] "still being processed" answers, the
    next attach request is resolved; and whenever that is so, it returns the
    data of that reply, the trace holding the [n] rejected attempts, each
    followed by its wait, and the resolved one. *)
Theorem attach_loop_succeeds_iff :
  forall (w : World) (c : KandjiClient) (appId fileKey : string)
         (tr : Trace) (d : ApiData),
    let req := attachRequest c appId fileKey in
    let result := Client.updateCustomApp w c appId fileKey 0 tr in
    (snd result = inr d
     <-> exists n,
           n <= Client.maxAttempts
           /\ allTransient w req tr n = true
           /\ axios_api w (tr ++ failedAttempts req n) req = Resolved d)
    /\ (forall n,
          n <= Client.maxAttempts ->
          allTransient w req tr n = true ->
          axios_api w (tr ++ failedAttempts req n) req = Resolved d ->
          result = (tr ++ failedAttempts req n ++ [Http req], inr d)).
Proof.
  intros w c appId fileKey tr d req result.
  assert (Hif : forall n,
             n <= Client.maxAttempts ->
             allTransient w req tr n = true ->
             axios_api w (tr ++ failedAttempts req n) req = Resolved d ->
             result = (tr ++ failedAttempts req n ++ [Http req], inr d)).
  { intros n Hn Hall Hreply. unfold result.
    rewrite (updateCustomApp_after_transients w c appId fileKey tr n Hn Hall).
    fold req. now rewrite Hreply. }
  split; [split|exact Hif].
  - intros Hok.
    destruct (updateCustomApp_shape w c appId fileKey 0 tr)
      as [n [Hall [_ [[Hle [d' [Hreply Hres]]]
                     | [[_ [e [_ [_ Hres]]]] | [_ Hres]]]]]];
      fold result in Hres; rewrite Hres in Hok; cbn [snd] in Hok;
      try discriminate Hok.
    exists n. inversion Hok; subst d'.
    repeat split; try assumption; lia.
  - intros [n [Hn [Hall Hreply]]]. now rewrite (Hif n Hn Hall Hreply).
Qed.

(** X2 at work: one transient answer, then the updated app. *)
Lemma attach_loop_succeeds_iff_witness :
  Client.updateCustomApp (Scenario.settlesAfter 1) Scenario.client
    "app-123" "k1" 0 []
  = (failedAttempts (attachRequest Scenario.client "app-123" "k1") 1
     ++ [Http (attachRequest Scenario.client "app-123" "k1")],
     inr "updated app").
Proof.
  refine (proj2
    (attach_loop_succeeds_iff (Scenario.settlesAfter 1) Scenario.client
       "app-123" "k1" [] "updated app") 1 _ _ _).
  - unfold Client.maxAttempts. lia.
  - reflexivity.
  - reflexivity.
Defined.

(** X3.  [updateCustomApp], started at counter 0, ends with the timeout error
    exactly when eleven attach requests in a row are answered "still being
    processed"; it has then waited eleven times, 55 seconds in all, the last
    wait being followed by no request. *)
Theorem attach_loop_times_out_iff :
  forall (w : World) (c : KandjiClient) (appId fileKey : string) (tr : Trace),
    let req := attachRequest c appId fileKey in
    let result := Client.updateCustomApp w c appId fileKey 0 tr in
    (snd result = inl timeoutError <-> allTransient w req tr 11 = true)
    /\ (allTransient w req tr 11 = true ->
        fst result = tr ++ failedAttempts req 11
        /\ totalWait (failedAttempts req 11) = 11 * 5000
        /\ last (fst result) (Http req) = SetTimeout 5000).
Proof.
  intros w c appId fileKey tr req result.
  assert (Hrun : allTransient w req tr 11 = true ->
                 result = (tr ++ failedAttempts req 11, inl timeoutError)).
  { intros Hall. unfold result.
    rewrite (updateCustomApp_transient_run w c appId fileKey 11 0 tr);
      [|unfold Client.maxAttempts; lia | exact Hall].
    apply updateCustomApp_above. unfold Client.maxAttempts. cbn. lia. }
  split; [split|].
  - intros Htimeout.
    destruct (updateCustomApp_shape w c appId fileKey 0 tr)
      as [n [Hall [Hn [[_ [d [_ Hres]]] | [[_ [e [_ [_ Hres]]]] | [Hgt _]]]]]].
    + fold result in Hres. rewrite Hres in Htimeout. discriminate Htimeout.
    + fold result in Hres. rewrite Hres in Htimeout. discriminate Htimeout.
    + unfold Client.maxAttempts in *.
      replace n with 11 in Hall by lia. exact Hall.
  - intros Hall. now rewrite (Hrun Hall).
  - intros Hall. rewrite (Hrun Hall). cbn [fst].
    split; [reflexivity|]. split; [reflexivity|].
    rewrite (failedAttempts_snoc req 10), app_assoc.
    change [Http req; SetTimeout Client.timeoutDuration]
      with ([Http req] ++ [SetTimeout 5000]).
    rewrite app_assoc. apply last_last.
Qed.

(** X3 at work: the backend that never settles. *)
Lemma attach_loop_times_out_iff_witness :
  fst (Client.updateCustomApp Scenario.neverSettles Scenario.client
         "app-123" "k1" 0 [])
  = failedAttempts (attachRequest Scenario.client "app-123" "k1") 11.
Proof.
  refine (proj1 (proj2
    (attach_loop_times_out_iff Scenario.neverSettles Scenario.client
       "app-123" "k1" []) _)).
  reflexivity.
Defined.

(** X4.  In every call of [updateCustomApp], from any counter, each wait
    follows a rejected attach request: the waits are as many as the requests
    or one fewer, each lasts 5000 ms, and the requests are at most as many as
    the counter leaves below twelve; so a call started at 0 sends at most
    eleven requests and waits at most 55 seconds. *)
Theorem attach_loop_waits_and_requests :
  forall (w : World) (c : KandjiClient) (appId fileKey : string)
         (attempt : nat) (tr : Trace),
  exists evs,
    fst (Client.updateCustomApp w c appId fileKey attempt tr) = tr ++ evs
    /\ patchesIn evs <= S Client.maxAttempts - attempt
    /\ httpIn evs = patchesIn evs
    /\ (waitsIn evs = patchesIn evs \/ S (waitsIn evs) = patchesIn evs)
    /\ totalWait evs = 5000 * waitsIn evs
    /\ totalWait evs <= 11 * 5000.
Proof.
  intros w c appId fileKey attempt tr.
  pose proof (failedAttempts_counts c appId fileKey) as Hcount.
  cbv zeta in Hcount.
  destruct (updateCustomApp_shape w c appId fileKey attempt tr)
    as [n [_ [Hn [[Hle [d [_ ->]]] | [[Hle [e [_ [_ ->]]]] | [Hgt ->]]]]]];
    cbn [fst]; destruct (Hcount n) as [Hw [Hh Ht]].
  1, 2: exists (failedAttempts (attachRequest c appId fileKey) n
                ++ [Http (attachRequest c appId fileKey)]).
  3: exists (failedAttempts (attachRequest c appId fileKey) n).
  all: split; [reflexivity|].
  all: rewrite ?patchesIn_app, ?httpIn_app, ?waitsIn_app, ?totalWait_app,
         ?patchesIn_failedAttempts, Hw, Hh, Ht.
  all: change (patchesIn [Http (attachRequest c appId fileKey)]) with 1.
  all: change (httpIn [Http (attachRequest c appId fileKey)]) with 1.
  all: change (waitsIn [Http (attachRequest c appId fileKey)]) with 0.
  all: change (totalWait [Http (attachRequest c appId fileKey)]) with 0.
  all: unfold Client.maxAttempts, Client.timeoutDuration in *.
  all: repeat split; lia.
Qed.

(** X5.  An attach attempt that fails without the transient signature ends
    the loop at once: no response at all (a network failure), a status other
    than 503 whatever the body says, or a 503 whose body is missing, is a
    plain text, or has no [detail]. *)
Theorem attach_loop_ends_on_other_failures :
  forall (w : World) (c : KandjiClient) (appId fileKey : string)
         (attempt : nat) (tr : Trace) (e : AxiosError),
    attempt <= Client.maxAttempts ->
    axios_api w tr (attachRequest c appId fileKey) = Rejected e ->
    (response e = None
     \/ exists r, response e = Some r
                  /\ (status r <> 503%Z
                      \/ errorData r = NoBody
                      \/ (exists text, errorData r = TextBody text)
                      \/ errorData r = ObjectBody None)) ->
    Client.updateCustomApp w c appId fileKey attempt tr
    = (tr ++ [Http (attachRequest c appId fileKey)], inl (Axios e)).
Proof.
  intros w c appId fileKey attempt tr e Hle Hreply Hcase.
  assert (He : Client.stillProcessing (Axios e) = false).
  { unfold Client.stillProcessing.
    destruct Hcase as [-> | [r [-> Hr]]]; [reflexivity|].
    destruct Hr as [Hst | [Hd | [[text Hd] | Hd]]].
    - apply Z.eqb_neq in Hst. now rewrite Hst.
    - rewrite Hd. apply andb_false_r.
    - rewrite Hd. apply andb_false_r.
    - rewrite Hd. apply andb_false_r. }
  rewrite updateCustomApp_step.
  assert (Hlt : (Client.maxAttempts <? attempt) = false)
    by (apply Nat.ltb_ge; lia).
  rewrite Hlt. cbv zeta. now rewrite Hreply, He.
Qed.

(** X5 at work: the API cannot be reached. *)
Lemma attach_loop_ends_on_other_failures_witness :
  Client.updateCustomApp Cases.apiUnreachable Scenario.client "app-123" "k1" 0 []
  = ([Http (attachRequest Scenario.client "app-123" "k1")],
     inl (Axios Cases.connectionRefused)).
Proof.
  refine (attach_loop_ends_on_other_failures Cases.apiUnreachable
            Scenario.client "app-123" "k1" 0 [] Cases.connectionRefused _ _ _).
  - unfold Client.maxAttempts. lia.
  - reflexivity.
  - left. reflexivity.
Defined.

(* ===================================================================== *)
(** ** More of [upload]                                                   *)
(* ===================================================================== *)

Lemma append_nil_r (s : string) : s +++ EmptyString = s.
Proof. induction s as [|c s IH]; cbn; congruence. Qed.

Lemma append_assoc (s1 s2 s3 : string) : (s1 +++ s2) +++ s3 = s1 +++ s2 +++ s3.
Proof. induction s1 as [|c s1 IH]; cbn; congruence. Qed.

Lemma dirOf_ends_with_slash (segs : list string) :
  dirOf segs = EmptyString \/ exists d, dirOf segs = d +++ "/".
Proof.
  induction segs as [|seg segs IH]; [now left|]. right. cbn [dirOf].
  destruct IH as [-> | [d ->]].
  - exists seg. reflexivity.
  - exists (seg +++ "/" +++ d). now rewrite !append_assoc.
Qed.

(** [s.split("/")]: the segments before the last slash, and what follows it. *)
Lemma split_segments (s : string) :
  exists segs name,
    JsString.split "/" s = segs ++ [name]
    /\ s = dirOf segs +++ name
    /\ hasChar "/" name = false.
Proof.
  induction s as [|c s [segs [name [Hsplit [Hs Hname]]]]].
  - exists [], EmptyString. repeat split.
  - cbn [JsString.split]. destruct (Ascii.eqb_spec c "/") as [->|Hc].
    + exists (EmptyString :: segs), name. rewrite Hsplit.
      repeat split; [|exact Hname]. subst s. reflexivity.
    + rewrite Hsplit. destruct segs as [|seg segs]; cbn [app].
      * exists [], (String c name). cbn in Hs. subst s.
        repeat split. cbn [hasChar]. rewrite Hname.
        apply Ascii.eqb_neq in Hc. now rewrite Hc.
      * exists (String c seg :: segs), name.
        repeat split; [|exact Hname]. subst s. reflexivity.
Qed.

Lemma pop_last (segs : list string) (name : string) :
  JsString.pop (segs ++ [name]) = Some name.
Proof.
  induction segs as [|seg segs IH]; [reflexivity|].
  cbn [app JsString.pop]. rewrite IH.
  destruct (segs ++ [name]) eqn:E; [now destruct segs|reflexivity].
Qed.

Section UploadRuns.

Variable w : World.
Variable c : KandjiClient.

(** The events an attach loop adds: [n] rejected attempts with their waits
    and, unless the counter ran out, one more attempt. *)
Lemma updateCustomApp_events appId fileKey attempt tr :
  exists n evs,
    fst (Client.updateCustomApp w c appId fileKey attempt tr) = tr ++ evs
    /\ (evs = failedAttempts (attachRequest c appId fileKey) n
        \/ evs = failedAttempts (attachRequest c appId fileKey) n
                 ++ [Http (attachRequest c appId fileKey)])
    /\ patchesIn evs <= S Client.maxAttempts - attempt
    /\ n <= S Client.maxAttempts - attempt
    /\ (attempt <= Client.maxAttempts -> 1 <= patchesIn evs).
Proof.
  destruct (updateCustomApp_shape w c appId fileKey attempt tr)
    as [n [_ [Hn [[Hle [d [_ ->]]] | [[Hle [e [_ [_ ->]]]] | [Hgt ->]]]]]];
    cbn [fst]; exists n.
  1, 2: exists (failedAttempts (attachRequest c appId fileKey) n
                ++ [Http (attachRequest c appId fileKey)]).
  3: exists (failedAttempts (attachRequest c appId fileKey) n).
  all: split; [reflexivity|].
  1, 2: split; [now right|].
  3: split; [now left|].
  all: rewrite ?patchesIn_app, patchesIn_failedAttempts.
  all: change (patchesIn [Http (attachRequest c appId fileKey)]) with 1.
  all: repeat split; lia.
Qed.

End UploadRuns.

(** X6.  The file name [upload] asks a signed URL for is the part of the
    path after its last slash: the path is a directory part, empty or ending
    in a slash, followed by the name, and the name holds no slash (it is the
    whole path when there is none, and empty when the path ends in one). *)
Theorem upload_names_last_path_segment :
  forall (c : KandjiClient) (filepath : string),
  exists dir name,
    data (uploadSignedUrlRequest c filepath) = UrlSearchParams [("name", name)]
    /\ filepath = dir +++ name
    /\ hasChar "/" name = false
    /\ (dir = EmptyString \/ exists d, dir = d +++ "/")
    /\ (hasChar "/" filepath = false -> name = filepath).
Proof.
  intros c filepath.
  destruct (split_segments filepath) as [segs [name [Hsplit [Hpath Hname]]]].
  exists (dirOf segs), name.
  split; [|split; [exact Hpath|split; [exact Hname|split]]].
  - unfold uploadSignedUrlRequest. now rewrite Hsplit, pop_last.
  - apply dirOf_ends_with_slash.
  - intros Hnone. destruct segs as [|seg segs]; [now rewrite Hpath|].
    exfalso. rewrite Hpath in Hnone. clear -Hnone. cbn [dirOf] in Hnone.
    induction seg as [|d seg IH]; cbn in Hnone; [discriminate|].
    apply orb_false_iff in Hnone as [_ Hnone]. now apply IH.
Qed.

(** X7.  [upload] succeeds exactly when the path exists, the signed-target
    request and the storage push are resolved, and, after some [n <= 10]
    "still being processed" answers, an attach request is resolved. *)
Theorem upload_succeeds_iff :
  forall (w : World) (c : KandjiClient) (filepath appId : string) (tr : Trace),
    let sign := uploadSignedUrlRequest c filepath in
    snd (Client.upload w c filepath appId tr) = inr tt
    <-> exists resolved signedUrl stored n updatedApp,
          let push := Client.storageRequest filepath signedUrl in
          let req := attachRequest c appId (file_key signedUrl) in
          fs_realpathSync w filepath = Some resolved
          /\ axios_signed w tr sign = Resolved signedUrl
          /\ axios_storage w (tr ++ [Http sign]) push = Resolved stored
          /\ n <= Client.maxAttempts
          /\ allTransient w req (tr ++ [Http sign; Http push]) n = true
          /\ axios_api w ((tr ++ [Http sign; Http push])
                          ++ failedAttempts req n) req
             = Resolved updatedApp.
Proof.
  intros w c filepath appId tr sign. rewrite upload_run. cbv zeta. fold sign.
  split.
  - destruct (fs_realpathSync w filepath) as [resolved|]; [|discriminate].
    destruct (axios_signed w tr sign) as [signedUrl|e]; [|discriminate].
    destruct (axios_storage w _ _) as [stored|e] eqn:Hpush; [|discriminate].
    destruct (updateCustomApp_shape w c appId (file_key signedUrl) 0
                (tr ++ [Http sign;
                        Http (Client.storageRequest filepath signedUrl)]))
      as [n [Hall [_ [[Hle [d [Hreply Hres]]]
                     | [[_ [e [_ [_ Hres]]]] | [_ Hres]]]]]];
      rewrite Hres; cbn [snd]; try discriminate.
    intros _. exists resolved, signedUrl, stored, n, d. cbv zeta.
    repeat split; try assumption; lia.
  - intros [resolved [signedUrl [stored [n [updatedApp H]]]]]. cbv zeta in H.
    destruct H as [-> [-> [-> [Hn [Hall Hreply]]]]].
    rewrite (updateCustomApp_after_transients w c appId (file_key signedUrl)
               _ n Hn Hall), Hreply.
    reflexivity.
Qed.

(** X8.  Which rejection [upload] throws, and what it has sent by then.
    An error of axios thrown by [upload] is the rejection of the last request
    it sent, and that request is the signed-target request (nothing else
    sent), or the one storage push (after the signed-target request), or an
    attach request (after both, any earlier attach requests having been
    answered "still being processed"), the rejection then not being the
    transient one.  The timeout error is thrown only after the signed-target
    request and the push were resolved and eleven attach requests in a row
    were answered "still being processed". *)
Theorem upload_failure_stages :
  forall (w : World) (c : KandjiClient) (filepath appId : string) (tr : Trace),
    let sign := uploadSignedUrlRequest c filepath in
    let result := Client.upload w c filepath appId tr in
    (forall e,
        snd result = inl (Axios e) ->
        (axios_signed w tr sign = Rejected e
         /\ fst result = tr ++ [Http sign])
        \/ (exists signedUrl,
              let push := Client.storageRequest filepath signedUrl in
              axios_signed w tr sign = Resolved signedUrl
              /\ axios_storage w (tr ++ [Http sign]) push = Rejected e
              /\ fst result = tr ++ [Http sign; Http push])
        \/ (exists signedUrl stored n,
              let push := Client.storageRequest filepath signedUrl in
              let req := attachRequest c appId (file_key signedUrl) in
              axios_signed w tr sign = Resolved signedUrl
              /\ axios_storage w (tr ++ [Http sign]) push = Resolved stored
              /\ n <= Client.maxAttempts
              /\ allTransient w req (tr ++ [Http sign; Http push]) n = true
              /\ axios_api w ((tr ++ [Http sign; Http push])
                              ++ failedAttempts req n) req = Rejected e
              /\ ~ transientFailure e
              /\ fst result = tr ++ [Http sign; Http push]
                                ++ failedAttempts req n ++ [Http req]))
    /\ (snd result = inl timeoutError ->
        exists signedUrl stored,
          let push := Client.storageRequest filepath signedUrl in
          let req := attachRequest c appId (file_key signedUrl) in
          axios_signed w tr sign = Resolved signedUrl
          /\ axios_storage w (tr ++ [Http sign]) push = Resolved stored
          /\ allTransient w req (tr ++ [Http sign; Http push]) 11 = true
          /\ fst result = tr ++ [Http sign; Http push]
                            ++ failedAttempts req 11).
Proof.
  intros w c filepath appId tr sign result. unfold result.
  rewrite upload_run. cbv zeta. fold sign.
  destruct (fs_realpathSync w filepath) as [resolved|].
  2: { split; [intros e H|intros H]; discriminate H. }
  destruct (axios_signed w tr sign) as [signedUrl|e0].
  2: { split; [|intros H; discriminate H]. intros e H. left. cbn in *.
       inversion H; subst e0. now split. }
  destruct (axios_storage w _ _) as [stored|e0] eqn:Hpush.
  2: { split; [|intros H; discriminate H]. intros e H. right; left.
       exists signedUrl. cbn in *. inversion H; subst e0.
       repeat split. exact Hpush. }
  destruct (updateCustomApp_shape w c appId (file_key signedUrl) 0
              (tr ++ [Http sign;
                      Http (Client.storageRequest filepath signedUrl)]))
    as [n [Hall [Hn [[_ [d [_ Hres]]]
                    | [[Hle [e0 [Hreply [He Hres]]]] | [Hgt Hres]]]]]];
    rewrite Hres; cbn [fst snd].
  - split; [intros e H|intros H]; discriminate H.
  - split; [|intros H; discriminate H]. intros e H. inversion H; subst e0.
    right; right. exists signedUrl, stored, n. cbv zeta.
    split; [reflexivity|]. split; [exact Hpush|]. split; [lia|].
    split; [exact Hall|]. split; [exact Hreply|].
    split; [now apply stillProcessing_false|]. now rewrite <- app_assoc.
  - split; [intros e H; discriminate H|]. intros _.
    exists signedUrl, stored. cbv zeta.
    unfold Client.maxAttempts in *. replace n with 11 in * by lia.
    split; [reflexivity|]. split; [exact Hpush|]. split; [exact Hall|].
    now rewrite <- app_assoc.
Qed.

(** X8 at work: the signed-target request answered 403. *)
Lemma upload_failure_stages_witness :
  fst (Client.upload Cases.signingDenied Scenario.client "/tmp/build.zip"
         "app-123" [])
  = [Http (uploadSignedUrlRequest Scenario.client "/tmp/build.zip")].
Proof.
  destruct (proj1 (upload_failure_stages Cases.signingDenied Scenario.client
                     "/tmp/build.zip" "app-123" [])
              Scenario.accessDenied403 eq_refl)
    as [[_ H] | [[su [H _]] | [su [stored [n [H _]]]]]].
  - exact H.
  - discriminate H.
  - discriminate H.
Defined.

(** X9.  One call of [upload] sends at most thirteen requests, one for the
    signed target, one push and at most eleven attach requests, and waits at
    most eleven times 5000 ms; a path that does not exist costs no request
    at all. *)
Theorem upload_request_budget :
  forall (w : World) (c : KandjiClient) (filepath appId : string) (tr : Trace),
  exists evs,
    fst (Client.upload w c filepath appId tr) = tr ++ evs
    /\ httpIn evs <= 13
    /\ patchesIn evs <= 11
    /\ httpIn evs <= 2 + patchesIn evs
    /\ totalWait evs <= 11 * 5000
    /\ (fs_realpathSync w filepath = None -> evs = []).
Proof.
  intros w c filepath appId tr. rewrite upload_run. cbv zeta.
  destruct (fs_realpathSync w filepath) as [resolved|].
  2: { exists []. rewrite app_nil_r. split; [reflexivity|].
       change (httpIn []) with 0. change (patchesIn []) with 0.
       change (totalWait []) with 0. repeat split; lia. }
  destruct (axios_signed w tr _) as [signedUrl|e].
  2: { exists [Http (uploadSignedUrlRequest c filepath)].
       split; [reflexivity|].
       change (httpIn [Http (uploadSignedUrlRequest c filepath)]) with 1.
       change (patchesIn [Http (uploadSignedUrlRequest c filepath)]) with 0.
       change (totalWait [Http (uploadSignedUrlRequest c filepath)]) with 0.
       repeat split; try lia. discriminate. }
  destruct (axios_storage w _ _) as [stored|e].
  2: { exists [Http (uploadSignedUrlRequest c filepath);
               Http (Client.storageRequest filepath signedUrl)].
       split; [reflexivity|].
       change (httpIn [Http (uploadSignedUrlRequest c filepath);
                       Http (Client.storageRequest filepath signedUrl)])
         with 2.
       change (patchesIn [Http (uploadSignedUrlRequest c filepath);
                          Http (Client.storageRequest filepath signedUrl)])
         with 0.
       change (totalWait [Http (uploadSignedUrlRequest c filepath);
                          Http (Client.storageRequest filepath signedUrl)])
         with 0.
       repeat split; try lia. discriminate. }
  destruct (updateCustomApp_events w c appId (file_key signedUrl) 0
              (tr ++ [Http (uploadSignedUrlRequest c filepath);
                      Http (Client.storageRequest filepath signedUrl)]))
    as [n [evs [Hfst [Hevs [Hp [Hn _]]]]]].
  exists ([Http (uploadSignedUrlRequest c filepath);
           Http (Client.storageRequest filepath signedUrl)] ++ evs).
  split.
  { destruct (Client.updateCustomApp w c appId (file_key signedUrl) 0 _)
      as [tr' [e|d]]; cbn [fst] in *; subst tr'; now rewrite <- app_assoc. }
  destruct (failedAttempts_counts c appId (file_key signedUrl) n)
    as [Hw [Hh Ht]].
  rewrite httpIn_app, patchesIn_app, totalWait_app.
  change (httpIn [Http (uploadSignedUrlRequest c filepath);
                  Http (Client.storageRequest filepath signedUrl)]) with 2.
  change (patchesIn [Http (uploadSignedUrlRequest c filepath);
                     Http (Client.storageRequest filepath signedUrl)]) with 0.
  change (totalWait [Http (uploadSignedUrlRequest c filepath);
                     Http (Client.storageRequest filepath signedUrl)]) with 0.
  unfold Client.maxAttempts, Client.timeoutDuration in *.
  destruct Hevs as [-> | ->];
    rewrite ?httpIn_app, ?patchesIn_app, ?totalWait_app,
      ?patchesIn_failedAttempts, ?Hh, ?Ht in *;
    change (patchesIn [Http (attachRequest c appId (file_key signedUrl))])
      with 1 in *;
    change (httpIn [Http (attachRequest c appId (file_key signedUrl))])
      with 1;
    change (totalWait [Http (attachRequest c appId (file_key signedUrl))])
      with 0;
    repeat split; try lia; discriminate.
Qed.

(** X10.  The API token goes to the API only: every request of [upload] that
    carries an [Authorization] header is addressed below the base URL of the
    client, and the storage push, addressed to the signed URL, carries
    none. *)
Theorem upload_sends_token_to_api_only :
  forall (w : World) (c : KandjiClient) (filepath appId : string) (tr : Trace),
    (exists evs,
       fst (Client.upload w c filepath appId tr) = tr ++ evs
       /\ forall r, In (Http r) evs -> carriesAuthorization r = true ->
                    exists path, url r = baseUrl c +++ path)
    /\ (forall signedUrl,
          let push := Client.storageRequest filepath signedUrl in
          carriesAuthorization push = false /\ url push = post_url signedUrl).
Proof.
  intros w c filepath appId tr. split; [|intros signedUrl; now split].
  rewrite upload_run. cbv zeta.
  destruct (fs_realpathSync w filepath) as [resolved|].
  2: { exists []. rewrite app_nil_r. split; [reflexivity|]. intros r []. }
  destruct (axios_signed w tr _) as [signedUrl|e].
  2: { eexists. split; [reflexivity|]. intros r [H|[]] _.
       inversion H. eexists. reflexivity. }
  destruct (axios_storage w _ _) as [stored|e].
  2: { eexists. split; [reflexivity|]. intros r [H|[H|[]]] Hauth;
         inversion H; subst r; [eexists; reflexivity|discriminate Hauth]. }
  destruct (updateCustomApp_trace w c appId (file_key signedUrl) 0
              (tr ++ [Http (uploadSignedUrlRequest c filepath);
                      Http (Client.storageRequest filepath signedUrl)]))
    as [evs [Hfst [Hall _]]].
  exists ([Http (uploadSignedUrlRequest c filepath);
           Http (Client.storageRequest filepath signedUrl)] ++ evs).
  split.
  { destruct (Client.updateCustomApp w c appId (file_key signedUrl) 0 _)
      as [tr' [e|d]]; cbn [fst] in *; subst tr'; now rewrite <- app_assoc. }
  intros r [H|[H|Hin]] Hauth.
  - inversion H. eexists. reflexivity.
  - inversion H; subst r. discriminate Hauth.
  - rewrite Forall_forall in Hall. destruct (Hall _ Hin) as [H|H];
      [|discriminate H].
    inversion H. eexists. reflexivity.
Qed.

(* ===================================================================== *)
(** ** More of the multipart body and of the transport                    *)
(* ===================================================================== *)

Lemma buildFormData_fields (filepath : string) (signedUrl : SignedUrl) :
  Client.buildFormData filepath signedUrl
  = ("key", Text (file_key signedUrl))
      :: map postDataField (filter notNamedKey (post_data signedUrl))
      ++ [("file", ReadStream filepath)].
Proof.
  unfold Client.buildFormData. cbv zeta.
  rewrite fold_appendPostData. reflexivity.
Qed.

Lemma filter_notNamedKey_idem (entries : list (string * string)) :
  filter notNamedKey (filter notNamedKey entries) = filter notNamedKey entries.
Proof.
  induction entries as [|entry entries IH]; [reflexivity|].
  cbn [filter]. destruct (notNamedKey entry) eqn:E; [|exact IH].
  cbn [filter]. now rewrite E, IH.
Qed.

(** X11.  What the form of [uploadToS3] holds: a text field [(k, v)] is in
    it exactly when it is the file key under the name [key], or an entry of
    [post_data] with a name other than [key]; and the only file stream is the
    given path.  So entries of [post_data] named [key] change nothing: the
    form is the one built from [post_data] without them, and it has two
    fields more than [post_data] has entries not named [key]. *)
Theorem form_fields_of_post_data :
  forall (filepath : string) (signedUrl : SignedUrl),
    let form := Client.buildFormData filepath signedUrl in
    (forall k v,
        In (k, Text v) form
        <-> (k = "key" /\ v = file_key signedUrl)
            \/ (k <> "key" /\ In (k, v) (post_data signedUrl)))
    /\ filter isReadStream form = [("file", ReadStream filepath)]
    /\ form = Client.buildFormData filepath
                {| post_url := post_url signedUrl;
                   file_key := file_key signedUrl;
                   post_data := filter notNamedKey (post_data signedUrl) |}
    /\ length form = 2 + length (filter notNamedKey (post_data signedUrl)).
Proof.
  intros filepath signedUrl form. unfold form.
  rewrite !buildFormData_fields. cbn [post_data file_key].
  split; [|split; [|split]].
  - intros k v. cbn [In]. rewrite in_app_iff, in_map_iff. split.
    + intros [H | [[[k' v'] [H Hin]] | [H | []]]].
      * left. now inversion H.
      * right. unfold postDataField in H. cbn [fst snd] in H.
        inversion H; subst k' v'. apply filter_In in Hin as [Hin Hk].
        split; [|exact Hin]. unfold notNamedKey in Hk. cbn [fst] in Hk.
        apply negb_true_iff, String.eqb_neq in Hk. exact Hk.
      * discriminate H.
    + intros [[-> ->] | [Hk Hin]]; [now left|].
      right; left. exists (k, v). split; [reflexivity|].
      apply filter_In. split; [exact Hin|].
      unfold notNamedKey. cbn [fst].
      now apply negb_true_iff, String.eqb_neq.
  - cbn [filter isReadStream snd]. rewrite filter_app.
    assert (Hnone : forall entries : list (string * string),
               filter isReadStream (map postDataField entries) = []).
    { induction entries as [|entry entries IH]; [reflexivity|exact IH]. }
    now rewrite Hnone.
  - now rewrite filter_notNamedKey_idem.
  - cbn [length]. rewrite length_app, length_map. cbn [length]. lia.
Qed.

(** X12.  Every method of the transport sends exactly one request per call
    and hands the error of axios through as it is: [request] and, through it,
    [getCustomAppById] (a [GET] of the app, no body) and [listApps] (a [GET]
    of the collection, no body), as well as [getSignedUrl] and
    [uploadToS3].  None of them waits or sends again. *)
Theorem transport_sends_one_request :
  forall (w : World) (c : KandjiClient) (tr : Trace),
    (forall method endpoint body,
        let req := Client.requestOf c method endpoint body in
        Client.request w c method endpoint body tr
        = (tr ++ [Http req], settled (axios_api w tr req)))
    /\ (forall id,
          let req := Client.requestOf c GET
                       ("/api/v1/library/custom-apps/" +++ id) NoData in
          Client.getCustomAppById w c id tr
          = (tr ++ [Http req], settled (axios_api w tr req)))
    /\ (let req := Client.requestOf c GET "/api/v1/library/custom-apps" NoData in
        Client.listApps w c tr
        = (tr ++ [Http req], settled (axios_api w tr req)))
    /\ (forall filename,
          let req := Client.signedUrlRequest c filename in
          Client.getSignedUrl w c filename tr
          = (tr ++ [Http req], settled (axios_signed w tr req)))
    /\ (forall filepath signedUrl,
          let req := Client.storageRequest filepath signedUrl in
          Client.uploadToS3 w filepath signedUrl tr
          = (tr ++ [Http req], settled (axios_storage w tr req))).
Proof.
  intros w c tr.
  split; [|split; [|split; [|split]]].
  - intros method endpoint body req. apply request_run.
  - intros id req. unfold Client.getCustomAppById. cbv zeta. apply request_run.
  - cbv zeta. unfold Client.listApps, tryCatch, throw, settled. cbv zeta.
    rewrite request_run. destruct (axios_api w tr _); reflexivity.
  - intros filename req. reflexivity.
  - intros filepath signedUrl req. apply uploadToS3_run.
Qed.

(* ===================================================================== *)
(** ** More of the release plugins                                        *)
(* ===================================================================== *)

(** X13.  [verifyConditions] succeeds exactly when both environment
    variables and both [appID] and [asset] are set and not empty; a missing
    environment variable is reported first, whatever the configuration; and
    in no case is anything sent. *)
Theorem verifyConditions_succeeds_iff :
  forall (w : World) (pluginConfig : Plugin.PluginConfig) (tr : Trace),
    let result := Plugin.verifyConditions w pluginConfig tr in
    fst result = tr
    /\ (snd result = inr tt
        <-> truthy (env_KANDJI_BASE_URL w) = true
            /\ truthy (env_KANDJI_API_TOKEN w) = true
            /\ truthy (Plugin.appID pluginConfig) = true
            /\ truthy (Plugin.asset pluginConfig) = true)
    /\ (truthy (env_KANDJI_BASE_URL w) = false
        \/ truthy (env_KANDJI_API_TOKEN w) = false ->
        snd result
        = inl (Error
            "Environment variables KANDJI_BASE_URL and KANDJI_API_TOKEN are required.")).
Proof.
  intros w pluginConfig tr result. unfold result, Plugin.verifyConditions.
  destruct (truthy (env_KANDJI_BASE_URL w)),
    (truthy (env_KANDJI_API_TOKEN w)),
    (truthy (Plugin.appID pluginConfig)),
    (truthy (Plugin.asset pluginConfig)); cbn [negb orb fst snd throw ret].
  all: split; [reflexivity|]; split;
    [split; [intros H; try discriminate H; now repeat split
            | intros [H1 [H2 [H3 H4]]]; try discriminate; reflexivity]
    | intros [H|H]; try discriminate H; reflexivity].
Qed.

(** X14.  [resolveAsset] and [prepare] send nothing and wait for nothing,
    whatever the configuration, the release version and the file system. *)
Theorem prepare_sends_nothing :
  forall (w : World) (pluginConfig : Plugin.PluginConfig)
         (context : Plugin.Context) (assetPattern version : option string)
         (tr : Trace),
    fst (Plugin.resolveAsset w assetPattern version tr) = tr
    /\ fst (Plugin.prepare w pluginConfig context tr) = tr.
Proof.
  assert (Hresolve : forall w assetPattern version tr,
             fst (Plugin.resolveAsset w assetPattern version tr) = tr).
  { intros w assetPattern version tr. unfold Plugin.resolveAsset.
    destruct (negb (truthy version)); [reflexivity|].
    destruct assetPattern as [pattern|]; [|reflexivity]. cbv zeta.
    destruct (length _ =? 0); [reflexivity|].
    destruct (1 <? length _); [reflexivity|].
    destruct (nth_error _ 0); reflexivity. }
  intros w pluginConfig context assetPattern version tr.
  split; [apply Hresolve|].
  unfold Plugin.prepare, bind, tryCatch, Plugin.access.
  specialize (Hresolve w (Plugin.asset pluginConfig)
                (Plugin.nextRelease_version context) tr).
  destruct (Plugin.resolveAsset w _ _ tr) as [tr' [e|resolvedAsset]];
    cbn [fst] in *; [exact Hresolve|].
  destruct (fs_access w resolvedAsset); exact Hresolve.
Qed.

(** X15.  [prepare], for a configured asset pattern, succeeds exactly when
    there is a non-empty release version, the pattern with the version put in
    matches exactly one file, and that file can be accessed; when the one
    matched file cannot be accessed the error names it. *)
Theorem prepare_succeeds_iff :
  forall (w : World) (pluginConfig : Plugin.PluginConfig)
         (context : Plugin.Context) (assetPattern : string) (tr : Trace),
    Plugin.asset pluginConfig = Some assetPattern ->
    let result := Plugin.prepare w pluginConfig context tr in
    (snd result = inr tt
     <-> exists version file,
           Plugin.nextRelease_version context = Some version
           /\ version <> EmptyString
           /\ glob_sync w (Plugin.processPattern assetPattern version) = [file]
           /\ fs_access w file = true)
    /\ (forall version file,
          Plugin.nextRelease_version context = Some version ->
          version <> EmptyString ->
          glob_sync w (Plugin.processPattern assetPattern version) = [file] ->
          fs_access w file = false ->
          snd result
          = inl (Error ("The asset file does not exist: " +++ file))).
Proof.
  intros w pluginConfig context assetPattern tr Hasset result.
  unfold result, Plugin.prepare, bind, tryCatch, Plugin.access.
  rewrite Hasset. split.
  - split.
    + destruct (Plugin.nextRelease_version context) as [version|] eqn:Hv;
        [|cbn; discriminate].
      destruct version as [|ch version]; [cbn; discriminate|].
      rewrite resolveAsset_run by discriminate. cbv zeta.
      destruct (glob_sync w _) as [|file [|file' files]] eqn:Hglob;
        try (cbn; discriminate).
      destruct (fs_access w file) eqn:Haccess; [|cbn; discriminate].
      intros _. exists (String ch version), file.
      repeat split; try assumption. discriminate.
    + intros [version [file [-> [Hne [Hglob Haccess]]]]].
      rewrite resolveAsset_run by exact Hne. cbv zeta.
      now rewrite Hglob, Haccess.
  - intros version file -> Hne Hglob Haccess.
    rewrite resolveAsset_run by exact Hne. cbv zeta.
    now rewrite Hglob, Haccess.
Qed.

(** X15 at work: version 1.2.3, one file matched and present. *)
Lemma prepare_succeeds_iff_witness :
  snd (Plugin.prepare Cases.allWell (Scenario.pluginConfig [])
         Scenario.context [])
  = inr tt.
Proof.
  refine (proj2 (proj1
    (prepare_succeeds_iff Cases.allWell (Scenario.pluginConfig [])
       Scenario.context "dist/*-${nextRelease.version}.pkg" [] eq_refl)) _).
  exists "1.2.3", "dist/app.pkg". repeat split. discriminate.
Defined.

(** X16.  The release gate with the flags left out: [release] counts as
    [true] and [preRelease] as [false], so both plugins run on every branch
    that is not a pre-release branch and on no other; with [preRelease: true]
    alone they run on every branch, and with [release: false] alone on none.
    A branch counts as a pre-release branch when [branch.prerelease] is
    [true] or a non-empty channel name. *)
Theorem release_gate_defaults :
  forall (w : World) (appID asset : option string)
         (script : option (list string)) (version : option string)
         (prerelease : Prerelease),
    let pluginConfig release preRelease :=
      Plugin.mkPluginConfig appID asset release preRelease script in
    let context := Plugin.mkContext prerelease version in
    let config release preRelease :=
      ReleasePlugin.mkConfig appID asset preRelease release script in
    let context' := ReleasePlugin.mkContext prerelease in
    let skip : IO unit := fun tr => (tr, inr tt) in
    Plugin.publish w (pluginConfig None None) context
    = (if isPrereleaseOf prerelease then skip
       else Plugin.publishRelease w (pluginConfig None None) context)
    /\ Plugin.publish w (pluginConfig None (Some true)) context
       = Plugin.publishRelease w (pluginConfig None (Some true)) context
    /\ Plugin.publish w (pluginConfig (Some false) None) context = skip
    /\ ReleasePlugin.kandjiSemanticReleasePlugin w (config None None) context'
       = (if isPrereleaseOf prerelease then skip
          else ReleasePlugin.runRelease w (config None None))
    /\ ReleasePlugin.kandjiSemanticReleasePlugin w (config None (Some true))
         context'
       = ReleasePlugin.runRelease w (config None (Some true))
    /\ ReleasePlugin.kandjiSemanticReleasePlugin w (config (Some false) None)
         context' = skip
    /\ (isPrereleaseOf prerelease = true
        <-> prerelease = PrereleaseBool true
            \/ exists channel, prerelease = PrereleaseName channel
                               /\ channel <> EmptyString).
Proof.
  intros w appID asset script version prerelease. cbv zeta.
  rewrite !publish_gate, !kandjiSemanticReleasePlugin_gate.
  unfold releaseGate. cbn [Plugin.release Plugin.preRelease
    ReleasePlugin.release ReleasePlugin.preRelease orDefault
    Plugin.branch_prerelease ReleasePlugin.branch_prerelease].
  repeat split.
  1-6: destruct (isPrereleaseOf prerelease); reflexivity.
  - destruct prerelease as [|[|]|channel]; cbn [isPrereleaseOf];
      try discriminate; [now left|].
    intros H. right. exists channel. split; [reflexivity|].
    now apply truthy_Some.
  - intros [-> | [channel [-> Hne]]]; [reflexivity|].
    cbn [isPrereleaseOf]. now apply truthy_Some.
Qed.

(** X17.  With the gate open and a base URL or token missing from the
    environment, [publish] ends with the error of the client's constructor
    before it looks for the asset or sends anything. *)
Theorem publish_without_environment :
  forall (w : World) (pluginConfig : Plugin.PluginConfig)
         (context : Plugin.Context) (tr : Trace),
    releaseGate (orDefault (Plugin.release pluginConfig) true)
      (orDefault (Plugin.preRelease pluginConfig) false)
      (isPrereleaseOf (Plugin.branch_prerelease context)) = true ->
    truthy (env_KANDJI_BASE_URL w) = false
    \/ truthy (env_KANDJI_API_TOKEN w) = false ->
    Plugin.publish w pluginConfig context tr
    = (tr, inl (Error "Base URL and API token are required.")).
Proof.
  intros w pluginConfig context tr Hgate Henv.
  rewrite publish_gate, Hgate, publishRelease_run.
  unfold Client.constructor.
  destruct Henv as [-> | ->]; cbn [negb orb]; [reflexivity|].
  now rewrite orb_true_r.
Qed.

(** X17 at work: no token in the environment. *)
Lemma publish_without_environment_witness :
  Plugin.publish Cases.noToken (Scenario.pluginConfig []) Scenario.context []
  = ([], inl (Error "Base URL and API token are required.")).
Proof.
  refine (publish_without_environment Cases.noToken (Scenario.pluginConfig [])
            Scenario.context [] _ _).
  - reflexivity.
  - right. reflexivity.
Defined.

(** X18.  With the gate open, [kandjiSemanticReleasePlugin] checks its
    configuration, then the environment, each before anything is sent: a
    missing or empty [appID] or [asset] gives "Invalid configuration ..."
    whatever the environment holds; with both set, a missing or empty base
    URL or token gives "Environment variables ... must be set."; and with all
    four set, an asset that cannot be accessed ends the run with that file
    system error, still nothing sent. *)
Theorem release_plugin_checks_before_sending :
  forall (w : World) (config : ReleasePlugin.Config)
         (context : ReleasePlugin.Context) (tr : Trace),
    releaseGate (orDefault (ReleasePlugin.release config) true)
      (orDefault (ReleasePlugin.preRelease config) false)
      (isPrereleaseOf (ReleasePlugin.branch_prerelease context)) = true ->
    let result := ReleasePlugin.kandjiSemanticReleasePlugin w config context tr in
    (truthy (ReleasePlugin.appID config) = false
     \/ truthy (ReleasePlugin.asset config) = false ->
     result
     = (tr, inl (Error "Invalid configuration: appID and asset are required.")))
    /\ (truthy (ReleasePlugin.appID config) = true ->
        truthy (ReleasePlugin.asset config) = true ->
        truthy (env_KANDJI_BASE_URL w) = false
        \/ truthy (env_KANDJI_API_TOKEN w) = false ->
        result
        = (tr, inl (Error
             "Environment variables KANDJI_BASE_URL and KANDJI_API_TOKEN must be set.")))
    /\ (forall asset,
          truthy (ReleasePlugin.appID config) = true ->
          ReleasePlugin.asset config = Some asset ->
          asset <> EmptyString ->
          truthy (env_KANDJI_BASE_URL w) = true ->
          truthy (env_KANDJI_API_TOKEN w) = true ->
          fs_access w asset = false ->
          result = (tr, inl (ENOENT asset))).
Proof.
  intros w config context tr Hgate result. unfold result.
  rewrite kandjiSemanticReleasePlugin_gate, Hgate, runRelease_run.
  split; [|split].
  - intros [-> | ->]; cbn [negb orb]; [reflexivity|].
    now rewrite orb_true_r.
  - intros -> -> Henv. cbn [negb orb].
    destruct Henv as [-> | ->]; cbn [negb orb]; [reflexivity|].
    now rewrite orb_true_r.
  - intros asset -> Hasset Hne Hurl Htoken Haccess.
    rewrite Hasset. apply truthy_Some in Hne. rewrite Hne, Hurl, Htoken.
    cbn [negb orb]. unfold Client.constructor. rewrite Hurl, Htoken.
    cbn [negb orb ret JsString.template]. cbv zeta. now rewrite Haccess.
Qed.

(** X18 at work: no token in the environment, the configuration complete. *)
Lemma release_plugin_checks_before_sending_witness :
  ReleasePlugin.kandjiSemanticReleasePlugin Cases.noToken (Scenario.config [])
    {| ReleasePlugin.branch_prerelease := PrereleaseUndefined |} []
  = ([], inl (Error
       "Environment variables KANDJI_BASE_URL and KANDJI_API_TOKEN must be set.")).
Proof.
  refine (proj1 (proj2
    (release_plugin_checks_before_sending Cases.noToken (Scenario.config [])
       {| ReleasePlugin.branch_prerelease := PrereleaseUndefined |} [] _))
    _ _ _).
  - reflexivity.
  - reflexivity.
  - reflexivity.
  - right. reflexivity.
Defined.

(** X19.  In both plugins the post-install script is patched only after a
    successful [upload]: when [upload] fails, its error is thrown and the
    trace is the one [upload] left, whatever script is configured. *)
Theorem failed_upload_skips_script :
  forall (w : World) (tr tr1 : Trace) (kandjiClient : KandjiClient)
         (error : Exn),
    Client.constructor (env_KANDJI_BASE_URL w) (env_KANDJI_API_TOKEN w) tr
    = (tr, inr kandjiClient) ->
    (forall pluginConfig context resolvedAsset,
        releaseGate (orDefault (Plugin.release pluginConfig) true)
          (orDefault (Plugin.preRelease pluginConfig) false)
          (isPrereleaseOf (Plugin.branch_prerelease context)) = true ->
        Plugin.resolveAsset w (Plugin.asset pluginConfig)
          (Plugin.nextRelease_version context) tr = (tr, inr resolvedAsset) ->
        Client.upload w kandjiClient resolvedAsset
          (JsString.template (Plugin.appID pluginConfig)) tr
        = (tr1, inl error) ->
        Plugin.publish w pluginConfig context tr = (tr1, inl error))
    /\ (forall config context asset,
          releaseGate (orDefault (ReleasePlugin.release config) true)
            (orDefault (ReleasePlugin.preRelease config) false)
            (isPrereleaseOf (ReleasePlugin.branch_prerelease context)) = true ->
          ReleasePlugin.asset config = Some asset ->
          asset <> EmptyString ->
          truthy (ReleasePlugin.appID config) = true ->
          fs_access w asset = true ->
          Client.upload w kandjiClient asset
            (JsString.template (ReleasePlugin.appID config)) tr
          = (tr1, inl error) ->
          ReleasePlugin.kandjiSemanticReleasePlugin w config context tr
          = (tr1, inl error)).
Proof.
  intros w tr tr1 kandjiClient error Hnew.
  assert (Henv : negb (truthy (env_KANDJI_BASE_URL w))
                 || negb (truthy (env_KANDJI_API_TOKEN w)) = false).
  { unfold Client.constructor in Hnew.
    destruct (negb (truthy (env_KANDJI_BASE_URL w))
              || negb (truthy (env_KANDJI_API_TOKEN w)));
      [discriminate Hnew|reflexivity]. }
  split.
  - intros pluginConfig context resolvedAsset Hgate Hasset Hupload.
    now rewrite publish_gate, Hgate, publishRelease_run, Hnew, Hasset, Hupload.
  - intros config context asset Hgate Hasset Hne HappID Haccess Hupload.
    rewrite kandjiSemanticReleasePlugin_gate, Hgate, runRelease_run.
    apply truthy_Some in Hne. rewrite HappID, Hasset, Hne. cbn [negb orb].
    rewrite Henv, Hnew. cbv zeta. cbn [JsString.template].
    now rewrite Haccess, Hupload.
Qed.

(** X19 at work: the storage push answered 403, a script configured. *)
Lemma failed_upload_skips_script_witness :
  Plugin.publish Scenario.storageDown (Scenario.pluginConfig ["echo installed"])
    Scenario.context []
  = ([Http (uploadSignedUrlRequest Scenario.client "dist/app.pkg");
      Http (Client.storageRequest "dist/app.pkg" Scenario.target)],
     inl (Axios Scenario.accessDenied403)).
Proof.
  refine (proj1
    (failed_upload_skips_script Scenario.storageDown []
       [Http (uploadSignedUrlRequest Scenario.client "dist/app.pkg");
        Http (Client.storageRequest "dist/app.pkg" Scenario.target)]
       Scenario.client (Axios Scenario.accessDenied403) _)
    (Scenario.pluginConfig ["echo installed"]) Scenario.context
    "dist/app.pkg" _ _ _).
  - reflexivity.
  - reflexivity.
  - reflexivity.
  - vm_compute. reflexivity.
Defined.

(** X20.  Without a post-install script, left out or empty, both plugins
    do what [upload] does and nothing more: same trace, same outcome. *)
Theorem publish_without_script_is_upload :
  forall (w : World) (tr : Trace) (kandjiClient : KandjiClient),
    Client.constructor (env_KANDJI_BASE_URL w) (env_KANDJI_API_TOKEN w) tr
    = (tr, inr kandjiClient) ->
    (forall pluginConfig context resolvedAsset,
        releaseGate (orDefault (Plugin.release pluginConfig) true)
          (orDefault (Plugin.preRelease pluginConfig) false)
          (isPrereleaseOf (Plugin.branch_prerelease context)) = true ->
        Plugin.postinstallScript pluginConfig = None
        \/ Plugin.postinstallScript pluginConfig = Some [] ->
        Plugin.resolveAsset w (Plugin.asset pluginConfig)
          (Plugin.nextRelease_version context) tr = (tr, inr resolvedAsset) ->
        Plugin.publish w pluginConfig context tr
        = Client.upload w kandjiClient resolvedAsset
            (JsString.template (Plugin.appID pluginConfig)) tr)
    /\ (forall config context asset,
          releaseGate (orDefault (ReleasePlugin.release config) true)
            (orDefault (ReleasePlugin.preRelease config) false)
            (isPrereleaseOf (ReleasePlugin.branch_prerelease context)) = true ->
          ReleasePlugin.postinstall_script config = None
          \/ ReleasePlugin.postinstall_script config = Some [] ->
          ReleasePlugin.asset config = Some asset ->
          asset <> EmptyString ->
          truthy (ReleasePlugin.appID config) = true ->
          fs_access w asset = true ->
          ReleasePlugin.kandjiSemanticReleasePlugin w config context tr
          = Client.upload w kandjiClient asset
              (JsString.template (ReleasePlugin.appID config)) tr).
Proof.
  intros w tr kandjiClient Hnew.
  assert (Henv : negb (truthy (env_KANDJI_BASE_URL w))
                 || negb (truthy (env_KANDJI_API_TOKEN w)) = false).
  { unfold Client.constructor in Hnew.
    destruct (negb (truthy (env_KANDJI_BASE_URL w))
              || negb (truthy (env_KANDJI_API_TOKEN w)));
      [discriminate Hnew|reflexivity]. }
  split.
  - intros pluginConfig context resolvedAsset Hgate Hscript Hasset.
    rewrite publish_gate, Hgate, publishRelease_run, Hnew, Hasset.
    assert (Hnil : orDefault (Plugin.postinstallScript pluginConfig) [] = [])
      by (destruct Hscript as [-> | ->]; reflexivity).
    rewrite Hnil.
    destruct (Client.upload w kandjiClient resolvedAsset _ tr)
      as [tr1 [e|[]]]; reflexivity.
  - intros config context asset Hgate Hscript Hasset Hne HappID Haccess.
    rewrite kandjiSemanticReleasePlugin_gate, Hgate, runRelease_run.
    apply truthy_Some in Hne. rewrite HappID, Hasset, Hne. cbn [negb orb].
    rewrite Henv, Hnew. cbv zeta. cbn [JsString.template]. rewrite Haccess.
    assert (Hnil : orDefault (ReleasePlugin.postinstall_script config) [] = [])
      by (destruct Hscript as [-> | ->]; reflexivity).
    rewrite Hnil.
    destruct (Client.upload w kandjiClient asset _ tr)
      as [tr1 [e|[]]]; reflexivity.
Qed.

(** X20 at work: no script configured, the app settles at once. *)
Lemma publish_without_script_is_upload_witness :
  Plugin.publish (Scenario.settlesAfter 0) (Scenario.pluginConfig [])
    Scenario.context []
  = Client.upload (Scenario.settlesAfter 0) Scenario.client "dist/app.pkg"
      "app-123" [].
Proof.
  refine (proj1
    (publish_without_script_is_upload (Scenario.settlesAfter 0) []
       Scenario.client _)
    (Scenario.pluginConfig []) Scenario.context "dist/app.pkg" _ _ _).
  - reflexivity.
  - reflexivity.
  - right. reflexivity.
  - reflexivity.
Defined.


(* ===================================================================== *)
(** ** The version placeholder of an asset pattern                        *)
(* ===================================================================== *)

Lemma getSubstitution_plain (matched before after repl : string) :
  hasChar "$" repl = false ->
  JsString.getSubstitution matched before after repl = repl.
Proof.
  induction repl as [|ch repl IH]; [reflexivity|].
  cbn [hasChar JsString.getSubstitution]. intros H.
  apply orb_false_iff in H as [Hch H]. rewrite Hch, IH by exact H.
  reflexivity.
Qed.

(** With a replacement text free of [$], what was passed before a match does
    not matter. *)
Lemma replaceAllFrom_before (pat repl : string) :
  hasChar "$" repl = false ->
  forall s skip before before',
    JsString.replaceAllFrom pat repl skip before s
    = JsString.replaceAllFrom pat repl skip before' s.
Proof.
  intros Hrepl. induction s as [|ch s IH]; intros skip before before';
    [reflexivity|].
  cbn [JsString.replaceAllFrom]. destruct skip as [|skip].
  - destruct (String.prefix pat (String ch s)).
    + rewrite !getSubstitution_plain by exact Hrepl.
      f_equal. apply IH.
    + f_equal. apply IH.
  - apply IH.
Qed.

Lemma replaceAllFrom_skip (pat repl post : string) :
  forall passed before,
    JsString.replaceAllFrom pat repl (String.length passed) before
      (passed +++ post)
    = JsString.replaceAllFrom pat repl 0 (before +++ passed) post.
Proof.
  induction passed as [|ch passed IH]; intros before.
  - cbn [String.length String.append]. now rewrite append_nil_r.
  - cbn [String.length String.append JsString.replaceAllFrom].
    rewrite IH. now rewrite append_assoc.
Qed.

Lemma replaceAllFrom_plain_prefix (pat' repl rest : string) :
  forall pre before,
    hasChar "$" pre = false ->
    JsString.replaceAllFrom (String "$" pat') repl 0 before (pre +++ rest)
    = pre +++ JsString.replaceAllFrom (String "$" pat') repl 0
                (before +++ pre) rest.
Proof.
  induction pre as [|ch pre IH]; intros before Hpre.
  - cbn [String.append]. now rewrite append_nil_r.
  - cbn [hasChar] in Hpre. apply orb_false_iff in Hpre as [Hch Hpre].
    cbn [String.append JsString.replaceAllFrom String.prefix].
    destruct (Ascii.ascii_dec "$" ch) as [Heq|Hne].
    + subst ch. discriminate Hch.
    + rewrite IH by exact Hpre. now rewrite append_assoc.
Qed.

(** A match of the pattern at the head of the subject, the replacement text
    free of [$]. *)
Lemma replaceAllFrom_match (pat' repl post : string) :
  hasChar "$" repl = false ->
  forall before,
    JsString.replaceAllFrom (String "$" pat') repl 0 before
      (String "$" pat' +++ post)
    = repl +++ JsString.replaceAllFrom (String "$" pat') repl 0
                 (before +++ String "$" pat') post.
Proof.
  intros Hrepl before.
  assert (Hprefix : String.prefix (String "$" pat')
                      (String "$" (pat' +++ post)) = true)
    by (apply prefix_spec; now exists post).
  cbn [String.append JsString.replaceAllFrom String.length].
  rewrite Hprefix, getSubstitution_plain by exact Hrepl.
  replace (S (String.length pat') - 1) with (String.length pat') by lia.
  rewrite replaceAllFrom_skip. f_equal. f_equal.
  now rewrite append_assoc.
Qed.

(** X21.  How [resolveAsset] puts the version into an asset pattern, for a
    version without [$] (every semantic version): in a pattern that starts
    with a text free of [$] followed by the placeholder
    [${nextRelease.version}], the text stays, the placeholder becomes the
    version, and the rest is processed the same way, so every placeholder is
    replaced; a pattern without any [$] is left as it is. *)
Theorem processPattern_replaces_each_placeholder :
  forall (version pre post : string),
    hasChar "$" version = false ->
    hasChar "$" pre = false ->
    Plugin.processPattern (pre +++ "${nextRelease.version}" +++ post) version
    = pre +++ version +++ Plugin.processPattern post version
    /\ Plugin.processPattern pre version = pre.
Proof.
  intros version pre post Hversion Hpre.
  unfold Plugin.processPattern, JsString.replaceAll. split.
  - rewrite replaceAllFrom_plain_prefix by exact Hpre.
    rewrite replaceAllFrom_match by exact Hversion.
    do 2 f_equal. now apply replaceAllFrom_before.
  - rewrite <- (append_nil_r pre) at 1.
    rewrite replaceAllFrom_plain_prefix by exact Hpre.
    apply append_nil_r.
Qed.

(** X21 at work: the pattern of the plugin's documentation. *)
Lemma processPattern_replaces_each_placeholder_witness :
  Plugin.processPattern "dist/*-${nextRelease.version}.pkg" "1.2.3"
  = "dist/*-" +++ "1.2.3" +++ Plugin.processPattern ".pkg" "1.2.3".
Proof.
  refine (proj1
    (processPattern_replaces_each_placeholder "1.2.3" "dist/*-" ".pkg" _ _));
    reflexivity.
Defined.
